(** * Vaultwarden password-rotation scheduler: rotation evaluation and
      notification dispatch.

    A shallow embedding of [vaultwarden_scheduler/scheduler.py],
    [config.py], [notification.py], [service.py] and the selection filters
    of [client.py], together with the parts of the Python standard library
    they rely on ([datetime], [timedelta], [json.dumps], [hashlib.sha256],
    [pathlib.Path]).

    Conventions.
    - A Python [str] is a [string]: a sequence of code points below 256.
    - A Python exception is a value of [exn]; a computation that may raise
      returns a [result], and one that also acts on the file system or the
      notifier returns its [result] together with the state it leaves
      behind, whether it returned or raised.
    - The vault API, the wall clock, the environment, the file system and
      the notifier are explicit arguments and explicit state. *)

From Stdlib Require Import ZArith Lia Ascii String DecimalString.
From stdpp Require Import base option list strings gmap.

Local Open Scope string_scope.
Local Open Scope Z_scope.
Local Open Scope list_scope.

(** ** Exceptions *)

Module Py.

Inductive exn : Type :=
  | ValueError
  | TypeError
  | OverflowError
  | AttributeError
  | OSError.

Inductive result (A : Type) : Type :=
  | Ok (a : A)
  | Raise (e : exn).
Arguments Ok {A} a.
Arguments Raise {A} e.

#[global] Instance result_ret : MRet result := fun A a => Ok a.
#[global] Instance result_bind : MBind result := fun A B k m =>
  match m with
  | Ok a => k a
  | Raise e => Raise e
  end.

(** [try: m except ValueError: handler] *)
Definition except_ValueError {A} (m : result A) (handler : result A) : result A :=
  match m with
  | Raise ValueError => handler
  | other => other
  end.

(** [try: m except Exception: handler]; every member of [exn] is an
    [Exception]. *)
Definition except_Exception {A} (m : result A) (handler : A) : A :=
  match m with
  | Ok a => a
  | Raise _ => handler
  end.

End Py.

Import Py.

(** ** Strings *)

Module Str.

Definition code (c : ascii) : Z := Z.of_N (N_of_ascii c).
Definition chr (n : Z) : ascii := ascii_of_N (Z.to_N n).

Definition chars (s : string) : list ascii := list_ascii_of_string s.
Definition of_chars (l : list ascii) : string := string_of_list_ascii l.

Definition eqb (a b : string) : bool := String.eqb a b.

(** [c in s] for a single character [c]. *)
Fixpoint contains (c : ascii) (s : string) : bool :=
  match s with
  | EmptyString => false
  | String d s' => if Ascii.eqb c d then true else contains c s'
  end.

Definition len (s : string) : Z := Z.of_nat (String.length s).

(** The quotation mark, code 34. *)
Definition dquote : ascii := Ascii false true false false false true false false.

(** A literal written with apostrophes, read with quotation marks. *)
Fixpoint requote (s : string) : string :=
  match s with
  | EmptyString => EmptyString
  | String c s' => String (if Ascii.eqb c "'"%char then dquote else c) (requote s')
  end.

(** [s[:n]] for [n >= 0]. *)
Definition prefix (n : nat) (s : string) : string := of_chars (take n (chars s)).

(** [s.endswith(suffix)] *)
Definition endswith (s suffix : string) : bool :=
  let ls := chars s in
  let lx := chars suffix in
  Str.eqb (of_chars (drop (length ls - length lx) ls)) suffix
  && (length lx <=? length ls)%nat.

(** [s[:-1]] *)
Definition drop_last (s : string) : string :=
  let l := chars s in of_chars (take (length l - 1) l).

(** Code points below 256 that [str.isspace] accepts. *)
Definition is_space (c : ascii) : bool :=
  let n := code c in
  ((9 <=? n) && (n <=? 13)) || ((28 <=? n) && (n <=? 32))
  || (n =? 133) || (n =? 160).

Fixpoint lstrip (s : string) : string :=
  match s with
  | EmptyString => EmptyString
  | String c s' => if is_space c then lstrip s' else s
  end.

Definition strip (s : string) : string :=
  of_chars (rev (chars (lstrip (of_chars (rev (chars (lstrip s))))))).

(** [str.lower] on code points below 256: the ASCII capitals and the
    Latin-1 capitals (all of 0xC0..0xDE but the multiplication sign). *)
Definition lower_char (c : ascii) : ascii :=
  let n := code c in
  if ((65 <=? n) && (n <=? 90))
     || ((192 <=? n) && (n <=? 222) && negb (n =? 215))
  then chr (n + 32) else c.

Fixpoint lower (s : string) : string :=
  match s with
  | EmptyString => EmptyString
  | String c s' => String (lower_char c) (lower s')
  end.

Definition of_Z (n : Z) : string := NilZero.string_of_int (Z.to_int n).

(** [sep.join(parts)] *)
Fixpoint join (sep : string) (parts : list string) : string :=
  match parts with
  | [] => ""
  | [p] => p
  | p :: rest => p +:+ sep +:+ join sep rest
  end.

(** [format(n, "0<width>d")] for [n >= 0]. *)
Definition zero_pad (width : nat) (n : Z) : string :=
  let d := of_Z n in
  of_chars (replicate (width - String.length d) "0"%char) +:+ d.

Definition hex_digit (n : Z) : ascii :=
  if n <? 10 then chr (48 + n) else chr (87 + n).

(** [format(n, "0<width>x")] for [0 <= n < 16^width]. *)
Fixpoint hex (width : nat) (n : Z) : string :=
  match width with
  | O => ""
  | S w => hex w (n / 16) +:+ String (hex_digit (n mod 16)) ""
  end.

(** [s.encode("utf-8")] on code points below 256. *)
Definition encode_utf8 (s : string) : list Z :=
  flat_map (fun c => let n := code c in
              if n <? 128 then [n]
              else [Z.lor 192 (Z.shiftr n 6); Z.lor 128 (Z.land n 63)])
           (chars s).

End Str.

(** ** [hashlib.sha256] (FIPS 180-4) *)

Module Sha256.

Definition w32 (x : Z) : Z := Z.land x 4294967295.
Definition rotr (n x : Z) : Z := Z.lor (Z.shiftr x n) (w32 (Z.shiftl x (32 - n))).
Definition Ch (x y z : Z) : Z := Z.lxor (Z.land x y) (Z.land (Z.lnot x) z).
Definition Maj (x y z : Z) : Z :=
  Z.lxor (Z.lxor (Z.land x y) (Z.land x z)) (Z.land y z).
Definition Sigma0 x := Z.lxor (Z.lxor (rotr 2 x) (rotr 13 x)) (rotr 22 x).
Definition Sigma1 x := Z.lxor (Z.lxor (rotr 6 x) (rotr 11 x)) (rotr 25 x).
Definition sigma0 x := Z.lxor (Z.lxor (rotr 7 x) (rotr 18 x)) (Z.shiftr x 3).
Definition sigma1 x := Z.lxor (Z.lxor (rotr 17 x) (rotr 19 x)) (Z.shiftr x 10).

(** The round constants and the initial hash value are the first 32 bits
    of the fractional parts of the cube roots, respectively square roots,
    of the first primes. *)
Definition is_prime (n : Z) : bool :=
  forallb (fun d => negb (n mod d =? 0)) (seqZ 2 (n - 2)).

Definition primes : list Z := filter (fun n => is_prime n = true) (seqZ 2 310).

(** The integer cube root of [n], built from bit [bits - 1] downwards. *)
Fixpoint cube_root (bits : nat) (n r : Z) : Z :=
  match bits with
  | O => r
  | S b =>
      let c := r + 2 ^ Z.of_nat b in
      cube_root b n (if c * c * c <=? n then c else r)
  end.

Definition K : list Z :=
  Eval vm_compute in map (fun p => w32 (cube_root 36 (p * 2 ^ 96) 0)) primes.

Definition H0 : list Z :=
  Eval vm_compute in map (fun p => w32 (Z.sqrt (p * 2 ^ 64))) (take 8 primes).

(** Big-endian bytes of [x], [n] of them. *)
Fixpoint be_bytes (n : nat) (x : Z) : list Z :=
  match n with
  | O => []
  | S n' => be_bytes n' (Z.shiftr x 8) ++ [Z.land x 255]
  end.

Definition pad (msg : list Z) : list Z :=
  let l := Z.of_nat (length msg) in
  let zeros := Z.to_nat ((55 - l) mod 64) in
  msg ++ [128] ++ replicate zeros 0 ++ be_bytes 8 (8 * l).

Fixpoint words (fuel : nat) (bytes : list Z) : list Z :=
  match fuel, bytes with
  | S f, a :: b :: c :: d :: rest =>
      (Z.shiftl a 24 + Z.shiftl b 16 + Z.shiftl c 8 + d) :: words f rest
  | _, _ => []
  end.

(** The message schedule, newest word first. *)
Fixpoint extend (n : nat) (w : list Z) : list Z :=
  match n with
  | O => w
  | S n' =>
      let g i := nth i w 0 in
      extend n' (w32 (sigma1 (g 1%nat) + g 6%nat + sigma0 (g 14%nat) + g 15%nat) :: w)
  end.

Definition schedule (block : list Z) : list Z := rev (extend 48 (rev block)).

Definition round (st : list Z) (kw : Z * Z) : list Z :=
  match st with
  | [a; b; c; d; e; f; g; h] =>
      let t1 := h + Sigma1 e + Ch e f g + fst kw + snd kw in
      let t2 := Sigma0 a + Maj a b c in
      [w32 (t1 + t2); a; b; c; w32 (d + t1); e; f; g]
  | _ => st
  end.

Fixpoint zip_kw (k w : list Z) : list (Z * Z) :=
  match k, w with
  | x :: k', y :: w' => (x, y) :: zip_kw k' w'
  | _, _ => []
  end.

Fixpoint add_words (a b : list Z) : list Z :=
  match a, b with
  | x :: a', y :: b' => w32 (x + y) :: add_words a' b'
  | _, _ => []
  end.

Definition compress (h : list Z) (block : list Z) : list Z :=
  add_words h (fold_left round (zip_kw K (schedule block)) h).

Fixpoint blocks (fuel : nat) (ws : list Z) : list (list Z) :=
  match fuel with
  | O => []
  | S f =>
      match ws with
      | [] => []
      | _ => take 16 ws :: blocks f (drop 16 ws)
      end
  end.

Definition digest_words (msg : list Z) : list Z :=
  let p := pad msg in
  let ws := words (length p) p in
  fold_left compress (blocks (length ws) ws) H0.

Definition hexdigest (msg : list Z) : string :=
  Str.join "" (map (Str.hex 8) (digest_words msg)).

End Sha256.

(** ** [datetime.timedelta] *)

Record timedelta : Type := mk_timedelta {
  td_days : Z;
  td_seconds : Z;
  td_microseconds : Z;
}.

Module Timedelta.

Definition MAX_DELTA_DAYS : Z := 999999999.

(** The constructor: carries microseconds into seconds and seconds into
    days, then refuses a day count beyond [MAX_DELTA_DAYS]. *)
Definition new (days seconds microseconds : Z) : result timedelta :=
  let s := seconds + microseconds / 1000000 in
  let us := microseconds mod 1000000 in
  let d := days + s / 86400 in
  let s := s mod 86400 in
  if Z.abs d <=? MAX_DELTA_DAYS then Ok (mk_timedelta d s us)
  else Raise OverflowError.

(** [timedelta(days=n)] *)
Definition of_days (n : Z) : result timedelta := new n 0 0.

Definition add (a b : timedelta) : result timedelta :=
  new (td_days a + td_days b) (td_seconds a + td_seconds b)
      (td_microseconds a + td_microseconds b).

Definition sub (a b : timedelta) : result timedelta :=
  new (td_days a - td_days b) (td_seconds a - td_seconds b)
      (td_microseconds a - td_microseconds b).

Definition eqb (a b : timedelta) : bool :=
  (td_days a =? td_days b) && (td_seconds a =? td_seconds b)
  && (td_microseconds a =? td_microseconds b).

Definition total_microseconds (a : timedelta) : Z :=
  (td_days a * 86400 + td_seconds a) * 1000000 + td_microseconds a.

(** [bool(td)] *)
Definition truthy (a : timedelta) : bool :=
  negb ((td_days a =? 0) && (td_seconds a =? 0) && (td_microseconds a =? 0)).

End Timedelta.

(** ** [datetime.datetime] *)

(** [tzinfo] is [None] for a naive datetime and a fixed UTC offset
    ([timezone.utc], [timezone(timedelta(...))]) for an aware one. *)
Record datetime : Type := mk_datetime {
  year : Z;
  month : Z;
  day : Z;
  hour : Z;
  minute : Z;
  second : Z;
  microsecond : Z;
  tzinfo : option timedelta;
}.

Module Datetime.

Definition MAXORDINAL : Z := 3652059.

Definition utc : option timedelta := Some (mk_timedelta 0 0 0).

Definition is_leap (y : Z) : bool :=
  (y mod 4 =? 0) && (negb (y mod 100 =? 0) || (y mod 400 =? 0)).

Definition DAYS_IN_MONTH : list Z :=
  [-1; 31; 28; 31; 30; 31; 30; 31; 31; 30; 31; 30; 31].
Definition DAYS_BEFORE_MONTH : list Z :=
  [-1; 0; 31; 59; 90; 120; 151; 181; 212; 243; 273; 304; 334].

Definition days_in_month (y m : Z) : Z :=
  if (m =? 2) && is_leap y then 29 else nth (Z.to_nat m) DAYS_IN_MONTH 0.

Definition days_before_year (y : Z) : Z :=
  let y := y - 1 in y * 365 + y / 4 - y / 100 + y / 400.

Definition days_before_month (y m : Z) : Z :=
  nth (Z.to_nat m) DAYS_BEFORE_MONTH 0 + (if (2 <? m) && is_leap y then 1 else 0).

Definition ymd2ord (y m d : Z) : Z :=
  days_before_year y + days_before_month y m + d.

Definition ord2ymd (n : Z) : Z * Z * Z :=
  let n := n - 1 in
  let n400 := n / 146097 in
  let n := n mod 146097 in
  let y := n400 * 400 + 1 in
  let n100 := n / 36524 in
  let n := n mod 36524 in
  let n4 := n / 1461 in
  let n := n mod 1461 in
  let n1 := n / 365 in
  let n := n mod 365 in
  let y := y + n100 * 100 + n4 * 4 + n1 in
  if (n1 =? 4) || (n100 =? 4) then (y - 1, 12, 31)
  else
    let leapyear := (n1 =? 3) && (negb (n4 =? 24) || (n100 =? 3)) in
    let m := Z.shiftr (n + 50) 5 in
    let preceding :=
      nth (Z.to_nat m) DAYS_BEFORE_MONTH 0
      + (if (2 <? m) && leapyear then 1 else 0) in
    if n <? preceding then
      let m := m - 1 in
      let preceding :=
        preceding
        - (nth (Z.to_nat m) DAYS_IN_MONTH 0
           + (if (m =? 2) && leapyear then 1 else 0)) in
      (y, m, n - preceding + 1)
    else (y, m, n - preceding + 1).

Definition toordinal (t : datetime) : Z := ymd2ord (year t) (month t) (day t).

(** What the constructor checks. *)
Definition valid (t : datetime) : bool :=
  (1 <=? year t) && (year t <=? 9999)
  && (1 <=? month t) && (month t <=? 12)
  && (1 <=? day t) && (day t <=? days_in_month (year t) (month t))
  && (0 <=? hour t) && (hour t <=? 23)
  && (0 <=? minute t) && (minute t <=? 59)
  && (0 <=? second t) && (second t <=? 59)
  && (0 <=? microsecond t) && (microsecond t <=? 999999)
  && match tzinfo t with
     | None => true
     | Some off =>
         let us := Timedelta.total_microseconds off in
         (-86400000000 <? us) && (us <? 86400000000)
         && (0 <=? td_seconds off) && (td_seconds off <? 86400)
         && (0 <=? td_microseconds off) && (td_microseconds off <? 1000000)
     end.

(** [t + delta]: the sum is taken on (ordinal, time of day) and must land
    on an ordinal in [1, MAXORDINAL]. *)
Definition add (t : datetime) (delta : timedelta) : result datetime :=
  base ← Timedelta.new (toordinal t)
           (hour t * 3600 + minute t * 60 + second t) (microsecond t);
  sum ← Timedelta.add base delta;
  let hh := td_seconds sum / 3600 in
  let rem := td_seconds sum mod 3600 in
  if (0 <? td_days sum) && (td_days sum <=? MAXORDINAL) then
    let '(y, m, d) := ord2ymd (td_days sum) in
    Ok (mk_datetime y m d hh (rem / 60) (rem mod 60)
                    (td_microseconds sum) (tzinfo t))
  else Raise OverflowError.

Definition eq_offset (a b : option timedelta) : bool :=
  match a, b with
  | None, None => true
  | Some x, Some y => Timedelta.eqb x y
  | _, _ => false
  end.

Definition fields (t : datetime) : list Z :=
  [year t; month t; day t; hour t; minute t; second t; microsecond t].

Fixpoint cmp_fields (a b : list Z) : Z :=
  match a, b with
  | x :: a', y :: b' =>
      if x <? y then -1 else if y <? x then 1 else cmp_fields a' b'
  | _, _ => 0
  end.

(** [a - b] for two aware datetimes with offsets [offa] and [offb]. *)
Definition sub_aware (a b : datetime) (offa offb : timedelta) : result timedelta :=
  base ← Timedelta.new (toordinal a - toordinal b)
           ((second a + minute a * 60 + hour a * 3600)
            - (second b + minute b * 60 + hour b * 3600))
           (microsecond a - microsecond b);
  shifted ← Timedelta.add base offb;
  Timedelta.sub shifted offa.

(** [datetime._cmp]: -1, 0 or 1; ordering a naive against an aware
    datetime raises [TypeError]. *)
Definition cmp (a b : datetime) : result Z :=
  if eq_offset (tzinfo a) (tzinfo b) then Ok (cmp_fields (fields a) (fields b))
  else
    match tzinfo a, tzinfo b with
    | Some offa, Some offb =>
        diff ← sub_aware a b offa offb;
        if td_days diff <? 0 then Ok (-1)
        else Ok (if Timedelta.truthy diff then 1 else 0)
    | _, _ => Raise TypeError
    end.

(** [a >= b] *)
Definition ge (a b : datetime) : result bool :=
  c ← cmp a b; Ok (0 <=? c).

Definition format_offset (off : option timedelta) : string :=
  match off with
  | None => ""
  | Some o =>
      let t := Timedelta.total_microseconds o in
      let sign := if td_days o <? 0 then "-" else "+" in
      let t := Z.abs t in
      let hh := t / 3600000000 in
      let r := t mod 3600000000 in
      let mm := r / 60000000 in
      let ss := r mod 60000000 in
      sign +:+ Str.zero_pad 2 hh +:+ ":" +:+ Str.zero_pad 2 mm
      +:+ (if ss =? 0 then ""
           else ":" +:+ Str.zero_pad 2 (ss / 1000000)
                +:+ (if ss mod 1000000 =? 0 then ""
                     else "." +:+ Str.zero_pad 6 (ss mod 1000000)))
  end.

(** [t.isoformat()] *)
Definition isoformat (t : datetime) : string :=
  Str.zero_pad 4 (year t) +:+ "-" +:+ Str.zero_pad 2 (month t) +:+ "-"
  +:+ Str.zero_pad 2 (day t) +:+ "T"
  +:+ Str.zero_pad 2 (hour t) +:+ ":" +:+ Str.zero_pad 2 (minute t) +:+ ":"
  +:+ Str.zero_pad 2 (second t)
  +:+ (if microsecond t =? 0 then "" else "." +:+ Str.zero_pad 6 (microsecond t))
  +:+ format_offset (tzinfo t).

End Datetime.

Definition utc_datetime (y m d hh mm ss : Z) : datetime :=
  mk_datetime y m d hh mm ss 0 Datetime.utc.

(** ** Python values as the vault API and [json] hand them over *)

(** The values a decoded JSON document is made of.  A [PyDict] keeps its
    items in insertion order, without repeated keys. *)
#[warnings="-register-all"] Inductive pyobj : Type :=
  | PyNone
  | PyBool (b : bool)
  | PyInt (n : Z)
  | PyStr (s : string)
  | PyList (items : list pyobj)
  | PyDict (items : list (string * pyobj)).

Module Obj.

(** [bool(v)] *)
Definition truthy (v : pyobj) : bool :=
  match v with
  | PyNone => false
  | PyBool b => b
  | PyInt n => negb (n =? 0)
  | PyStr s => negb (Str.eqb s "")
  | PyList l => match l with [] => false | _ => true end
  | PyDict l => match l with [] => false | _ => true end
  end.

(** [a or b] *)
Definition or_else (a b : pyobj) : pyobj := if truthy a then a else b.

Definition printable (c : ascii) : bool :=
  let n := Str.code c in
  ((32 <=? n) && (n <=? 126)) || ((161 <=? n) && negb (n =? 173)).

Definition repr_char (quote : ascii) (c : ascii) : string :=
  if Ascii.eqb c quote then String "\"%char (String c "")
  else if Ascii.eqb c "\"%char then "\\"
  else if Str.code c =? 9 then "\t"
  else if Str.code c =? 10 then "\n"
  else if Str.code c =? 13 then "\r"
  else if printable c then String c ""
  else "\x" +:+ Str.hex 2 (Str.code c).

(** [repr(s)] for a [str]. *)
Definition repr_str (s : string) : string :=
  let quote :=
    if Str.contains "'"%char s && negb (Str.contains Str.dquote s)
    then Str.dquote else "'"%char in
  String quote (Str.join "" (map (repr_char quote) (Str.chars s)))
  +:+ String quote "".

(** [repr(v)] *)
Fixpoint repr (v : pyobj) : string :=
  match v with
  | PyNone => "None"
  | PyBool b => if b then "True" else "False"
  | PyInt n => Str.of_Z n
  | PyStr s => repr_str s
  | PyList l => "[" +:+ Str.join ", " (map repr l) +:+ "]"
  | PyDict l =>
      "{" +:+ Str.join ", "
                (map (fun kv => repr_str (fst kv) +:+ ": " +:+ repr (snd kv)) l)
      +:+ "}"
  end.

(** [str(v)] *)
Definition str (v : pyobj) : string :=
  match v with
  | PyStr s => s
  | other => repr other
  end.

(** Whether [v] can be a member of a [set]. *)
Definition hashable (v : pyobj) : bool :=
  match v with
  | PyList _ | PyDict _ => false
  | _ => true
  end.

(** [v == s] for a [str] [s]. *)
Definition eq_str (v : pyobj) (s : string) : bool :=
  match v with
  | PyStr t => Str.eqb t s
  | _ => false
  end.

(** [v in set(strs)] *)
Definition in_str_set (v : pyobj) (strs : list string) : result bool :=
  if hashable v then Ok (existsb (eq_str v) strs) else Raise TypeError.

Fixpoint assoc (k : string) (l : list (string * pyobj)) : option pyobj :=
  match l with
  | [] => None
  | (k', v) :: rest => if Str.eqb k k' then Some v else assoc k rest
  end.

(** [v.get(k)]: only a [dict] has the method. *)
Definition get (v : pyobj) (k : string) : result pyobj :=
  match v with
  | PyDict l => Ok (default PyNone (assoc k l))
  | _ => Raise AttributeError
  end.

End Obj.

(** ** [json.dumps] *)

Module Json.

(** One character of a string literal under [ensure_ascii=True]. *)
Definition escape_char (c : ascii) : string :=
  let n := Str.code c in
  if n =? 92 then "\\"
  else if n =? 34 then String "\"%char (String c "")
  else if n =? 8 then "\b"
  else if n =? 12 then "\f"
  else if n =? 10 then "\n"
  else if n =? 13 then "\r"
  else if n =? 9 then "\t"
  else if (32 <=? n) && (n <=? 126) then String c ""
  else "\u" +:+ Str.hex 4 n.

Definition encode_str (s : string) : string :=
  String Str.dquote (Str.join "" (map escape_char (Str.chars s)))
  +:+ String Str.dquote "".

Fixpoint insert_sorted (kv : string * string) (l : list (string * string))
  : list (string * string) :=
  match l with
  | [] => [kv]
  | x :: rest =>
      if String.ltb (fst kv) (fst x) then kv :: l else x :: insert_sorted kv rest
  end.

Definition sort_items (l : list (string * string)) : list (string * string) :=
  fold_right insert_sorted [] l.

(** [json.dumps(v, sort_keys=sort_keys)] with the default separators. *)
Fixpoint dumps (sort_keys : bool) (v : pyobj) : string :=
  match v with
  | PyNone => "null"
  | PyBool b => if b then "true" else "false"
  | PyInt n => Str.of_Z n
  | PyStr s => encode_str s
  | PyList l => "[" +:+ Str.join ", " (map (dumps sort_keys) l) +:+ "]"
  | PyDict l =>
      let rendered := map (fun kv => (fst kv, dumps sort_keys (snd kv))) l in
      let ordered := if sort_keys then sort_items rendered else rendered in
      "{" +:+ Str.join ", "
                (map (fun kv => encode_str (fst kv) +:+ ": " +:+ snd kv) ordered)
      +:+ "}"
  end.

End Json.

(** ** [config.py] *)

Record RotationPolicy : Type := mk_RotationPolicy {
  frequency_days : Z;
  grace_period_days : Z;
  target_collections : option (list string);
  target_users : option (list string);
  send_digest : bool;
}.

Definition frequency_delta (p : RotationPolicy) : result timedelta :=
  Timedelta.of_days (frequency_days p).

Definition grace_delta (p : RotationPolicy) : result timedelta :=
  Timedelta.of_days (grace_period_days p).

(** ** [scheduler.py]: the data model *)

Record VaultItem : Type := mk_VaultItem {
  id : string;
  name : string;
  user_id : option string;
  collection_ids : list string;
  revision_date : datetime;
  last_rotated_at : option datetime;
}.

(** [self.last_rotated_at or self.revision_date]; a [datetime] is always
    truthy. *)
Definition effective_rotation_source (item : VaultItem) : datetime :=
  match last_rotated_at item with
  | Some t => t
  | None => revision_date item
  end.

Record RotationCandidate : Type := mk_RotationCandidate {
  item : VaultItem;
  due_at : datetime;
}.

(** One call of [notifier.send_rotation_notice(recipient, items,
    policy_summary)]. *)
Record notice : Type := mk_notice {
  recipient : string;
  items : list RotationCandidate;
  policy_summary : string;
}.

(** ** The process environment and the file system *)

Inductive file_node : Type :=
  | Text (content : string)   (* [read_text] returns [content] *)
  | Unreadable.               (* the path exists, [read_text] raises *)

(** What stands in the way of [write_text] at a path. *)
Inductive fault : Type :=
  | NoAccess                  (* the path cannot be reached: [stat] and [open]
                                 raise an [OSError] that [exists] does not
                                 swallow (a directory that may not be
                                 searched, a name that is too long) *)
  | OpenFails                 (* [open(mode='w')] raises: the file stays as
                                 it is *)
  | WriteFails (written : nat).
                              (* [open(mode='w')] truncates the file, then
                                 the write raises after [written] characters *)

Record filesystem : Type := mk_filesystem {
  files : gmap string file_node;
  faults : gmap string fault;
}.

(** The paths on which [write_text] raises. *)
Definition unwritable (fs : filesystem) : gset string := dom (faults fs).

(** [path.exists()]: [False] for a missing file, and an exception where
    the path cannot be reached. *)
Definition path_exists (fs : filesystem) (path : string) : result bool :=
  match faults fs !! path with
  | Some NoAccess => Raise OSError
  | _ => Ok (bool_decide (is_Some (files fs !! path)))
  end.

Definition read_text (fs : filesystem) (path : string) : result string :=
  match faults fs !! path, files fs !! path with
  | Some NoAccess, _ => Raise OSError
  | _, Some (Text content) => Ok content
  | _, _ => Raise OSError
  end.

(** [path.write_text(content)]: how the call ends, and the file system it
    leaves behind. *)
Definition write_text (fs : filesystem) (path content : string)
  : result unit * filesystem :=
  match faults fs !! path with
  | None =>
      (Ok tt, mk_filesystem (<[path := Text content]> (files fs)) (faults fs))
  | Some (WriteFails written) =>
      (Raise OSError,
       mk_filesystem
         (<[path := Text (Str.prefix written content)]> (files fs)) (faults fs))
  | Some _ => (Raise OSError, fs)
  end.

(** [os.getenv(key, fallback)] *)
Definition getenv (environ : gmap string string) (key fallback : string) : string :=
  default fallback (environ !! key).

(** The state of one evaluation cycle's surroundings: the file system and
    the notifier's record of the calls it received. *)
Record world : Type := mk_world {
  fs : filesystem;
  outbox : list notice;
}.

(** ** [client.py]: [CipherSelection] *)

(** A raw cipher record, as decoded from the API response. *)
Abbreviation payload := (gmap string pyobj).

(** [payload.get(key)] *)
Definition payload_get (p : payload) (key : string) : pyobj :=
  default PyNone (p !! key).

Module CipherSelection.

(** The elements [for m in v] visits, when [v] is iterable. *)
Definition iterate (v : pyobj) : option (list pyobj) :=
  match v with
  | PyStr s => Some (map (fun c => PyStr (String c "")) (Str.chars s))
  | PyList l => Some l
  | PyDict l => Some (map (fun kv => PyStr (fst kv)) l)
  | _ => None
  end.

Definition matches_collections (collection_ids : list string) (cipher : payload)
  : result bool :=
  let cid := payload_get cipher "collectionId" in
  direct ← (if Obj.truthy cid then Obj.in_str_set cid collection_ids else Ok false);
  if direct : bool then Ok true
  else
    match iterate (payload_get cipher "collectionIds") with
    | Some multi =>
        Ok (existsb (fun m => existsb (Str.eqb (Obj.str m)) collection_ids) multi)
    | None => Ok false
    end.

Fixpoint filter_by (keep : payload -> result bool) (items : list payload)
  : result (list payload) :=
  match items with
  | [] => Ok []
  | c :: rest =>
      k ← keep c;
      kept ← filter_by keep rest;
      Ok (if k : bool then c :: kept else kept)
  end.

Definition filter_collections (items : list payload) (collection_ids : list string)
  : result (list payload) :=
  filter_by (matches_collections collection_ids) items.

Definition filter_users (items : list payload) (user_ids : list string)
  : result (list payload) :=
  filter_by (fun c => Obj.in_str_set (payload_get c "userId") user_ids) items.

End CipherSelection.

(** [bool(seq)] for an optional sequence. *)
Definition nonempty {A} (o : option (list A)) : bool :=
  match o with
  | Some (_ :: _) => true
  | _ => false
  end.

(** ** [scheduler.py] *)

Section Scheduler.

(** The library parsers: [datetime.fromisoformat(value)] and
    [datetime.strptime(value, fmt)], and [json.loads(text)].  Their
    grammar depends on the interpreter version; the scheduler only relies
    on their returning a value or raising. *)
Variable fromisoformat : string -> result datetime.
Variable strptime : string -> string -> result datetime.
Variable json_loads : string -> result pyobj.

(** The recipient lookup the scheduler was constructed with
    ([user_email_resolver], by default the client's
    [resolve_user_email]). *)
Variable user_email_resolver : VaultItem -> option string.

Definition formats : list string :=
  ["%Y-%m-%dT%H:%M:%S.%f"; "%Y-%m-%dT%H:%M:%S"; "%Y-%m-%d %H:%M:%S"].

(** [dt.replace(tzinfo=timezone.utc)] *)
Definition replace_tzinfo_utc (dt : datetime) : datetime :=
  mk_datetime (year dt) (month dt) (day dt) (hour dt) (minute dt) (second dt)
              (microsecond dt) Datetime.utc.

Fixpoint try_formats (value : string) (fmts : list string)
  : result (option datetime) :=
  match fmts with
  | [] => Ok None
  | fmt :: rest =>
      except_ValueError
        (dt ← strptime value fmt; Ok (Some (replace_tzinfo_utc dt)))
        (try_formats value rest)
  end.

Definition _parse_timestamp (raw : option string) : result (option datetime) :=
  match raw with
  | None => Ok None
  | Some raw =>
      if Str.eqb raw "" then Ok None
      else
        let value := Str.strip raw in
        if Str.eqb value "" then Ok None
        else
          let value :=
            if Str.endswith value "Z" then Str.drop_last value +:+ "+00:00"
            else value in
          except_ValueError
            (dt ← fromisoformat value; Ok (Some dt))
            (try_formats value formats)
  end.

(** [VaultItem.from_api(payload)]; [utcnow] is what
    [datetime.now(timezone.utc)] returns when it is asked. *)
Definition from_api (utcnow : datetime) (p : payload) : result VaultItem :=
  let cipher_id := Obj.str (payload_get p "id") in
  let name :=
    Obj.str (Obj.or_else (payload_get p "name")
               (Obj.or_else (payload_get p "organizationId")
                  (PyStr "Unnamed entry"))) in
  let user_id := payload_get p "userId" in
  parsed ← _parse_timestamp
             (Some (Obj.str (default (PyStr "") (p !! "revisionDate"))));
  let revision := default utcnow parsed in
  last_rotated ← _parse_timestamp (Some (Obj.str (payload_get p "passwordRotation")));
  last_rotated ←
    match last_rotated with
    | Some t => Ok (Some t)
    | None => _parse_timestamp (Some (Obj.str (payload_get p "lastPasswordRotation")))
    end;
  let collection_ids :=
    match payload_get p "collectionIds" with
    | PyList cids => map Obj.str cids
    | _ =>
        if Obj.truthy (payload_get p "collectionId")
        then [Obj.str (payload_get p "collectionId")]
        else []
    end in
  Ok (mk_VaultItem cipher_id name
        (if Obj.truthy user_id then Some (Obj.str user_id) else None)
        collection_ids revision last_rotated).

(** [[VaultItem.from_api(payload) for payload in selection]]; the [k]-th
    record reads the clock as [utcnow k]. *)
Fixpoint from_api_all (utcnow : nat -> datetime) (k : nat) (selection : list payload)
  : result (list VaultItem) :=
  match selection with
  | [] => Ok []
  | p :: rest =>
      it ← from_api (utcnow k) p;
      its ← from_api_all utcnow (S k) rest;
      Ok (it :: its)
  end.

(** The loop body of [_select_due_items]. *)
Fixpoint select_loop (now : datetime) (frequency reminder_threshold : timedelta)
    (items : list VaultItem) : result (list RotationCandidate) :=
  match items with
  | [] => Ok []
  | it :: rest =>
      let reference := effective_rotation_source it in
      due ← Datetime.add reference frequency;
      reminder ← Datetime.add reference reminder_threshold;
      is_due ← Datetime.ge now reminder;
      more ← select_loop now frequency reminder_threshold rest;
      Ok (if is_due : bool then mk_RotationCandidate it due :: more else more)
  end.

(** [_select_due_items(items)]; [now] is what [self._now_factory()]
    returns. *)
Definition _select_due_items (policy : RotationPolicy) (now : datetime)
    (items : list VaultItem) : result (list RotationCandidate) :=
  frequency ← frequency_delta policy;
  grace ← grace_delta policy;
  reminder_threshold ← Timedelta.sub frequency grace;
  select_loop now frequency reminder_threshold items.

Definition build_policy_summary (policy : RotationPolicy) : string :=
  Str.join ", "
    (["frequency " +:+ Str.of_Z (frequency_days policy) +:+ "d"]
     ++ (if grace_period_days policy =? 0 then []
         else ["grace " +:+ Str.of_Z (grace_period_days policy) +:+ "d"])
     ++ (match target_collections policy with
         | Some ((_ :: _) as l) => ["collections " +:+ Str.of_Z (Z.of_nat (length l))]
         | _ => []
         end)
     ++ (match target_users policy with
         | Some ((_ :: _) as l) => ["users " +:+ Str.of_Z (Z.of_nat (length l))]
         | _ => []
         end))%list.

(** The content hash of a candidate list: SHA-256 over the JSON text of
    [[{"id": c.item.id, "due": c.due_at.isoformat()} for c in candidates]]. *)
Definition digest_payload (candidates : list RotationCandidate) : pyobj :=
  PyList (map (fun c => PyDict [("id", PyStr (id (item c)));
                                ("due", PyStr (Datetime.isoformat (due_at c)))])
              candidates).

Definition fingerprint (candidates : list RotationCandidate) : string :=
  Sha256.hexdigest (Str.encode_utf8 (Json.dumps true (digest_payload candidates))).

(** What [_digest_has_changed] finds as [prev]; the test [path.exists()]
    is not inside the [try]. *)
Definition stored_hash (f : filesystem) (path : string) : result pyobj :=
  there ← path_exists f path;
  Ok (if there : bool
      then except_Exception
             (text ← read_text f path; doc ← json_loads text; Obj.get doc "last_hash")
             PyNone
      else PyNone).

Definition state_document (digest : string) : string :=
  Json.dumps false (PyDict [("last_hash", PyStr digest)]).

Definition state_file (environ : gmap string string) : string :=
  getenv environ "ROTATION_STATE_FILE" ".rotation_state.json".

(** [_digest_has_changed(candidates)]: what it returns or raises, and the
    file system it leaves behind.  An exception of [write_text] is
    swallowed, whatever the call has done to the file by then. *)
Definition _digest_has_changed (environ : gmap string string) (f : filesystem)
    (candidates : list RotationCandidate) : result bool * filesystem :=
  let digest := fingerprint candidates in
  match stored_hash f (state_file environ) with
  | Raise e => (Raise e, f)
  | Ok prev =>
      if Obj.eq_str prev digest then (Ok false, f)
      else
        (Ok true, snd (write_text f (state_file environ) (state_document digest)))
  end.

(** The test on [ROTATION_SNS_DIGEST] that selects digest mode. *)
Definition digest_mode (environ : gmap string string) : bool :=
  let v := Str.lower (getenv environ "ROTATION_SNS_DIGEST" "1") in
  existsb (Str.eqb v) ["1"; "true"; "yes"; "on"].

Definition send_rotation_notice (w : world) (to : string)
    (its : list RotationCandidate) (summary : string) : world :=
  mk_world (fs w) (outbox w ++ [mk_notice to its summary])%list.

(** [grouped.setdefault(email, []).append(candidate)] on a dict kept in
    insertion order. *)
Fixpoint group_add (email : string) (c : RotationCandidate)
    (grouped : list (string * list RotationCandidate))
  : list (string * list RotationCandidate) :=
  match grouped with
  | [] => [(email, [c])]
  | (k, v) :: rest =>
      if Str.eqb k email then (k, (v ++ [c])%list) :: rest
      else (k, v) :: group_add email c rest
  end.

Definition group_step (grouped : list (string * list RotationCandidate))
    (c : RotationCandidate) : list (string * list RotationCandidate) :=
  match user_email_resolver (item c) with
  | None => grouped
  | Some email => if Str.eqb email "" then grouped else group_add email c grouped
  end.

Definition group_by_recipient (candidates : list RotationCandidate)
  : list (string * list RotationCandidate) :=
  fold_left group_step candidates [].

(** [_dispatch_notifications(candidates)]: how the call ends, and the
    world it leaves behind. *)
Definition _dispatch_notifications (environ : gmap string string)
    (policy : RotationPolicy) (w : world) (candidates : list RotationCandidate)
  : result unit * world :=
  match candidates with
  | [] => (Ok tt, w)
  | _ =>
      if digest_mode environ then
        let '(changed, f) := _digest_has_changed environ (fs w) candidates in
        let w := mk_world f (outbox w) in
        match changed with
        | Raise e => (Raise e, w)
        | Ok false => (Ok tt, w)
        | Ok true =>
            (Ok tt,
             send_rotation_notice w "all" candidates (build_policy_summary policy))
        end
      else
        (Ok tt,
         fold_left
           (fun w g =>
              send_rotation_notice w (fst g) (snd g) (build_policy_summary policy))
           (group_by_recipient candidates) w)
  end.

(** [run_once(send_notifications)]: what it returns or raises, and the
    world it leaves behind; [ciphers] is what [client.list_ciphers()]
    returned. *)
Definition run_once (environ : gmap string string) (policy : RotationPolicy)
    (ciphers : list payload) (utcnow : nat -> datetime) (now : datetime)
    (send_notifications : bool) (w : world)
  : result (list RotationCandidate) * world :=
  let due_items :=
    selection ←
      (if nonempty (target_collections policy)
       then CipherSelection.filter_collections ciphers
              (default [] (target_collections policy))
       else Ok ciphers);
    selection ←
      (if nonempty (target_users policy)
       then CipherSelection.filter_users selection (default [] (target_users policy))
       else Ok selection);
    vault_items ← from_api_all utcnow 0 selection;
    _select_due_items policy now vault_items in
  match due_items with
  | Raise e => (Raise e, w)
  | Ok candidates =>
      if send_notifications && match candidates with [] => false | _ => true end
      then
        let '(dispatched, w') := _dispatch_notifications environ policy w candidates in
        (_ ← dispatched; Ok candidates, w')
      else (Ok candidates, w)
  end.

End Scheduler.

Arguments fingerprint : simpl never.
Arguments state_document : simpl never.
Arguments build_policy_summary : simpl never.

(** ** [notification.py]: label rendering *)

Definition _looks_encrypted (s : option string) : bool :=
  match s with
  | None => false
  | Some s =>
      if Str.eqb s "" then false
      else (Str.contains "|"%char s && Str.contains "."%char s) || (60 <? Str.len s)
  end.

(** [getattr(candidate.item, "cipher_type", None)]: a [VaultItem] has no
    such attribute. *)
Definition cipher_type (it : VaultItem) : option Z := None.

Definition TYPE_LABEL (t : Z) : option string :=
  if t =? 1 then Some "Login"
  else if t =? 2 then Some "SecureNote"
  else if t =? 3 then Some "Card"
  else if t =? 4 then Some "Identity"
  else None.

Definition _type_label (candidate : RotationCandidate) : string :=
  default "Item" (t ← cipher_type (item candidate); TYPE_LABEL t).

(** [a or b] on strings. *)
Definition str_or (a b : string) : string := if Str.eqb a "" then b else a.

Definition _label_for (candidate : RotationCandidate) : string :=
  let name := str_or (name (item candidate)) "(Unnamed)" in
  if _looks_encrypted (Some name) then
    let short_id := str_or (Str.prefix 8 (str_or (id (item candidate)) "")) "unknown" in
    "(" +:+ _type_label candidate +:+ ") ID:" +:+ short_id
  else name.

(** ** Reference instances of the library interfaces

    Small parsers for the fixed-width forms that [isoformat] emits and
    that the three [strptime] formats describe, and a reader for the
    state document.  They instantiate the parameters of the scheduler
    where a concrete run is evaluated. *)

Module Reference.

Definition digit (c : ascii) : option Z :=
  let n := Str.code c in
  if (48 <=? n) && (n <=? 57) then Some (n - 48) else None.

(** Exactly [n] decimal digits. *)
Fixpoint number (n : nat) (acc : Z) (l : list ascii) : option (Z * list ascii) :=
  match n with
  | O => Some (acc, l)
  | S n' =>
      match l with
      | c :: rest => d ← digit c; number n' (acc * 10 + d) rest
      | [] => None
      end
  end.

Definition expect (c : ascii) (l : list ascii) : option (list ascii) :=
  match l with
  | d :: rest => if Ascii.eqb c d then Some rest else None
  | [] => None
  end.

Definition date (l : list ascii) : option (Z * Z * Z * list ascii) :=
  '(y, l) ← number 4 0 l; l ← expect "-"%char l;
  '(m, l) ← number 2 0 l; l ← expect "-"%char l;
  '(d, l) ← number 2 0 l;
  Some (y, m, d, l).

Definition clock (l : list ascii) : option (Z * Z * Z * list ascii) :=
  '(hh, l) ← number 2 0 l; l ← expect ":"%char l;
  '(mm, l) ← number 2 0 l; l ← expect ":"%char l;
  '(ss, l) ← number 2 0 l;
  Some (hh, mm, ss, l).

(** [.ffffff] or [.fff], when present. *)
Definition fraction (l : list ascii) : Z * list ascii :=
  match expect "."%char l with
  | None => (0, l)
  | Some l' =>
      match number 6 0 l' with
      | Some r => r
      | None =>
          match number 3 0 l' with
          | Some (ms, rest) => (ms * 1000, rest)
          | None => (0, l)
          end
      end
  end.

(** [+HH:MM] or [-HH:MM], when present. *)
Definition offset (l : list ascii) : option (option timedelta) :=
  match l with
  | [] => Some None
  | c :: rest =>
      sign ← (if Ascii.eqb c "+"%char then Some 1
               else if Ascii.eqb c "-"%char then Some (-1) else None);
      '(hh, rest) ← number 2 0 rest; rest ← expect ":"%char rest;
      '(mm, rest) ← number 2 0 rest;
      match rest, Timedelta.new 0 (sign * (hh * 3600 + mm * 60)) 0 with
      | [], Ok off => Some (Some off)
      | _, _ => None
      end
  end.

Definition checked (t : datetime) : option datetime :=
  if Datetime.valid t then Some t else None.

Definition parse_iso (value : string) : option datetime :=
  '(y, m, d, l) ← date (Str.chars value);
  match l with
  | [] => checked (mk_datetime y m d 0 0 0 0 None)
  | _ :: l =>
      '(hh, mm, ss, l) ← clock l;
      let '(us, l) := fraction l in
      tz ← offset l;
      checked (mk_datetime y m d hh mm ss us tz)
  end.

Definition or_ValueError {A} (o : option A) : result A :=
  match o with
  | Some a => Ok a
  | None => Raise ValueError
  end.

Definition fromisoformat (value : string) : result datetime :=
  or_ValueError (parse_iso value).

Definition parse_with (sep : ascii) (fractional : bool) (value : string)
  : option datetime :=
  '(y, m, d, l) ← date (Str.chars value);
  l ← expect sep l;
  '(hh, mm, ss, l) ← clock l;
  '(us, l) ← (if fractional then
                 l ← expect "."%char l; number 6 0 l
               else Some (0, l));
  match l with
  | [] => checked (mk_datetime y m d hh mm ss us None)
  | _ => None
  end.

Definition strptime (value fmt : string) : result datetime :=
  or_ValueError
    (if Str.eqb fmt "%Y-%m-%dT%H:%M:%S.%f" then parse_with "T"%char true value
     else if Str.eqb fmt "%Y-%m-%dT%H:%M:%S" then parse_with "T"%char false value
     else if Str.eqb fmt "%Y-%m-%d %H:%M:%S" then parse_with " "%char false value
     else None).

Fixpoint strip_prefix (p l : list ascii) : option (list ascii) :=
  match p with
  | [] => Some l
  | c :: p' => l ← expect c l; strip_prefix p' l
  end.

Definition plain (c : ascii) : bool :=
  Obj.printable c && negb (Ascii.eqb c Str.dquote) && negb (Ascii.eqb c "\"%char)
  && (Str.code c <? 127).

(** Reads [{"last_hash": "<plain characters>"}]. *)
Definition json_loads (text : string) : result pyobj :=
  or_ValueError
    (l ← strip_prefix (Str.chars (Str.requote "{'last_hash': '")) (Str.chars text);
     let value := take (length l - 2) l in
     closing ← strip_prefix (Str.chars (Str.requote "'}")) (drop (length l - 2) l);
     match closing with
     | [] =>
         if forallb plain value
         then Some (PyDict [("last_hash", PyStr (Str.of_chars value))])
         else None
     | _ => None
     end).

(** A recipient lookup that addresses each owner at a fixed domain and
    resolves an ownerless item to nobody. *)
Definition resolver (it : VaultItem) : option string :=
  match user_id it with
  | Some u => Some (u +:+ "@example.org")
  | None => None
  end.

End Reference.

(** * Definitions used by the properties *)

(** The selection rule in the words of the specification: an item is due
    when [now >= source + (frequency_days - grace_period_days) days], and
    a due item's candidate carries [source + frequency_days days]. *)
Definition due_rule (policy : RotationPolicy) (now : datetime) (it : VaultItem)
  : result (option RotationCandidate) :=
  hard ← Timedelta.of_days (frequency_days policy);
  deadline ← Datetime.add (effective_rotation_source it) hard;
  early ← Timedelta.of_days (frequency_days policy - grace_period_days policy);
  reminder ← Datetime.add (effective_rotation_source it) early;
  is_due ← Datetime.ge now reminder;
  Ok (if is_due : bool then Some (mk_RotationCandidate it deadline) else None).

Module Scenario.

Definition policy : RotationPolicy := mk_RotationPolicy 90 5 None None true.

Definition login_a : VaultItem :=
  mk_VaultItem "a1b2c3d4-0001" "Mail" (Some "u1") []
               (utc_datetime 2024 1 1 0 0 0) None.

Definition login_b : VaultItem :=
  mk_VaultItem "a1b2c3d4-0002" "Bank" (Some "u2") []
               (utc_datetime 2023 12 1 0 0 0) None.

Definition due_a : RotationCandidate :=
  mk_RotationCandidate login_a (utc_datetime 2024 3 31 0 0 0).

Definition due_b : RotationCandidate :=
  mk_RotationCandidate login_b (utc_datetime 2024 2 29 0 0 0).

(** An item nobody owns. *)
Definition orphan : VaultItem :=
  mk_VaultItem "a1b2c3d4-0003" "Wiki" None []
               (utc_datetime 2023 11 1 0 0 0) None.

Definition due_orphan : RotationCandidate :=
  mk_RotationCandidate orphan (utc_datetime 2024 1 30 0 0 0).

(** The policy with [send_digest] switched off. *)
Definition policy_off : RotationPolicy := mk_RotationPolicy 90 5 None None false.

(** An environment that switches digest mode off. *)
Definition per_recipient : gmap string string := {[ "ROTATION_SNS_DIGEST" := "0" ]}.

(** An item whose name has the shape of ciphertext. *)
Definition cipher_named : RotationCandidate :=
  mk_RotationCandidate
    (mk_VaultItem "a1b2c3d4-0004" "2.ab3F==|c9Zp==|xyQ==" None []
                  (utc_datetime 2024 1 1 0 0 0) None)
    (utc_datetime 2024 3 31 0 0 0).

(** An item with an empty name. *)
Definition nameless : RotationCandidate :=
  mk_RotationCandidate
    (mk_VaultItem "a1b2c3d4-0005" "" None [] (utc_datetime 2024 1 1 0 0 0) None)
    (utc_datetime 2024 3 31 0 0 0).

(** A record without timestamps, and one whose timestamps are not dates. *)
Definition raw_bare : payload := {[ "id" := PyStr "a1b2c3d4-0006" ]}.

Definition raw_broken : payload :=
  {[ "id" := PyStr "a1b2c3d4-0007"; "revisionDate" := PyStr "yesterday";
     "passwordRotation" := PyStr "31/12/2023"; "lastPasswordRotation" := PyInt 7 ]}.

Definition day_85 : datetime := utc_datetime 2024 3 26 0 0 0.
Definition day_79 : datetime := utc_datetime 2024 3 20 0 0 0.

Definition raw_a : payload :=
  {[ "id" := PyStr "a1b2c3d4-0001"; "name" := PyStr "Mail";
     "userId" := PyStr "u1"; "revisionDate" := PyStr "2024-01-01T00:00:00Z" ]}.

Definition raw_b : payload :=
  {[ "id" := PyStr "a1b2c3d4-0002"; "name" := PyStr "Bank";
     "userId" := PyStr "u2"; "revisionDate" := PyStr "2023-12-01T00:00:00Z" ]}.

Definition clock (k : nat) : datetime := day_85.

Definition fresh : world := mk_world (mk_filesystem ∅ ∅) [].

(** The same, on a file system that refuses to store the state file. *)
Definition read_only : world :=
  mk_world (mk_filesystem ∅ {[ ".rotation_state.json" := OpenFails ]}) [].

(** The same, with a state file in a directory that may not be searched. *)
Definition locked : world :=
  mk_world (mk_filesystem ∅ {[ ".rotation_state.json" := NoAccess ]}) [].

Definition cycle (environ : gmap string string) (ciphers : list payload)
    (now : datetime) (w : world) : result (list RotationCandidate) * world :=
  run_once Reference.fromisoformat Reference.strptime Reference.json_loads
           Reference.resolver environ policy ciphers clock now true w.

(** A world whose state file holds something that is not JSON. *)
Definition corrupt : world :=
  mk_world (mk_filesystem {[ ".rotation_state.json" := Text "<<garbage>>" ]} ∅) [].

(** The world after a first digest-mode cycle that found [due_a]. *)
Definition after_first : world :=
  mk_world
    (mk_filesystem
       {[ ".rotation_state.json" := Text (state_document (fingerprint [due_a])) ]} ∅)
    [mk_notice "all" [due_a] (build_policy_summary policy)].

End Scenario.

(** A policy whose deadline lies beyond year 9999 while its reminder
    point does not. *)
Definition far_policy : RotationPolicy :=
  mk_RotationPolicy 4000000 3999999 None None true.

(** The single notification of digest mode. *)
Definition digest_notice (policy : RotationPolicy) (candidates : list RotationCandidate)
  : notice :=
  mk_notice "all" candidates (build_policy_summary policy).

(** The candidates a cycle selects: filtering, normalisation, selection. *)
Definition cycle_candidates
    (fromisoformat : string -> result datetime)
    (strptime : string -> string -> result datetime)
    (policy : RotationPolicy) (ciphers : list payload)
    (utcnow : nat -> datetime) (now : datetime) : result (list RotationCandidate) :=
  selection ←
    (if nonempty (target_collections policy)
     then CipherSelection.filter_collections ciphers
            (default [] (target_collections policy))
     else Ok ciphers);
  selection ←
    (if nonempty (target_users policy)
     then CipherSelection.filter_users selection (default [] (target_users policy))
     else Ok selection);
  vault_items ← from_api_all fromisoformat strptime utcnow 0 selection;
  _select_due_items policy now vault_items.

(** Whether the recipient lookup resolves the candidate's item to [r]. *)
Definition resolves_to (resolver : VaultItem -> option string) (r : string)
    (c : RotationCandidate) : bool :=
  match resolver (item c) with
  | Some email => Str.eqb email r
  | None => false
  end.

(** The distinct non-empty recipients of a candidate list, in the order
    of their first candidates. *)
Definition recipient_step (resolver : VaultItem -> option string)
    (seen : list string) (c : RotationCandidate) : list string :=
  match resolver (item c) with
  | Some email =>
      if Str.eqb email "" then seen
      else if bool_decide (email ∈ seen) then seen
      else seen ++ [email]
  | None => seen
  end.

Definition recipients (resolver : VaultItem -> option string)
    (candidates : list RotationCandidate) : list string :=
  fold_left (recipient_step resolver) candidates [].

(** The notification of one recipient group. *)
Definition group_notice (resolver : VaultItem -> option string)
    (policy : RotationPolicy) (candidates : list RotationCandidate) (r : string)
  : notice :=
  mk_notice r (List.filter (resolves_to resolver r) candidates)
            (build_policy_summary policy).

Definition with_send_digest (b : bool) (p : RotationPolicy) : RotationPolicy :=
  mk_RotationPolicy (frequency_days p) (grace_period_days p)
                    (target_collections p) (target_users p) b.

(** * The rest of the package *)

(** ** More of [str] *)

Module Text.

Fixpoint skip (p : ascii -> bool) (l : list ascii) : list ascii :=
  match l with
  | [] => []
  | c :: rest => if p c then skip p rest else l
  end.

(** [s.rstrip(c)] for one character [c]. *)
Definition rstrip_char (c : ascii) (s : string) : string :=
  Str.of_chars (rev (skip (Ascii.eqb c) (rev (Str.chars s)))).

(** [s.split(sep)] for one character [sep]; [cur] holds the characters of
    the piece under way, newest first. *)
Fixpoint split_chars (sep : ascii) (cur l : list ascii) : list (list ascii) :=
  match l with
  | [] => [rev cur]
  | c :: rest =>
      if Ascii.eqb c sep then rev cur :: split_chars sep [] rest
      else split_chars sep (c :: cur) rest
  end.

Definition split (sep : ascii) (s : string) : list string :=
  map Str.of_chars (split_chars sep [] (Str.chars s)).

(** [s.encode("ascii", "ignore").decode("ascii")] *)
Definition ascii_only (s : string) : string :=
  Str.of_chars (List.filter (fun c => Str.code c <? 128) (Str.chars s)).

(** [s in options] *)
Definition among (s : string) (options : list string) : bool :=
  existsb (Str.eqb s) options.

End Text.

(** ** [config.py]: [NotificationConfig] *)

Record NotificationConfig : Type := mk_NotificationConfig {
  region : string;
  topic_arn : string;
  access_key : option string;
  secret_key : option string;
  subject_prefix : option string;
}.

(** ** [notification.py]: the message and its delivery *)

Record NotificationResult : Type := mk_NotificationResult {
  result_recipient : string;
  message_id : string;
}.

(** The keyword arguments of one call of [sns.publish]. *)
Record request : Type := mk_request {
  TopicArn : string;
  Subject : string;
  Message : string;
  recipient_attribute : string;   (* [MessageAttributes["recipient"]["StringValue"]] *)
}.

(** What the body of the [try] does in one attempt, that is the call of
    [sns.publish] and the lookup of [MessageId] in its response: it
    completes (the response may have no [MessageId]), raises an
    instance of the notifier's client-error class (whose [response]
    attribute, if it has one, is kept), raises another [Exception], or
    raises something that is no [Exception] at all (a
    [KeyboardInterrupt]). *)
Inductive attempt_outcome : Type :=
  | Published (id_in_response : option string)
  | ClientFailure (response : option pyobj)
  | OtherFailure
  | Interrupted.

(** How [send_rotation_notice] ends: with a result; with the exception of
    the attempt number [attempt], raised again; with an exception of the
    [except] clause itself, raised while it looks for the error code; or
    with an exception of the message construction, before any attempt. *)
Inductive delivery : Type :=
  | Delivered (r : NotificationResult)
  | Propagated (attempt : Z) (failure : attempt_outcome)
  | HandlerRaised (attempt : Z) (e : exn)
  | NotBuilt (e : exn).

(** What the notifier did on the way: the requests handed to
    [sns.publish] and the seconds handed to [time.sleep], oldest first. *)
Record transcript : Type := mk_transcript {
  published : list request;
  sleeps : list Z;
}.

(** [f"{subject_prefix} password rotation reminder"[:100]] on the prefix
    reduced to ASCII. *)
Definition subject (config : NotificationConfig) : string :=
  let prefix := Text.ascii_only (str_or (default "" (subject_prefix config)) "Vaultwarden") in
  Str.prefix 100 (prefix +:+ " password rotation reminder").

(** [d.get(key, fallback)]: only a [dict] has the method. *)
Definition get_or (d : pyobj) (key : string) (fallback : pyobj) : result pyobj :=
  match d with
  | PyDict l => Ok (default fallback (Obj.assoc key l))
  | _ => Raise AttributeError
  end.

(** [getattr(e, "response", {}).get("Error", {}).get("Code")] *)
Definition error_code (response : option pyobj) : result pyobj :=
  error ← get_or (default (PyDict []) response) "Error" (PyDict []);
  Obj.get error "Code".

(** [code in {"Throttling", "InternalError", "ServiceUnavailable"}] on the
    code of the exception. *)
Definition retryable (response : option pyobj) : result bool :=
  code ← error_code response;
  Obj.in_str_set code ["Throttling"; "InternalError"; "ServiceUnavailable"].

(** The loop [for attempt in range(5)] of [send_rotation_notice], and
    what follows it; [publish k req] is what the body of the [try] does in
    attempt [k]. *)
Fixpoint retry_loop (publish : Z -> request -> attempt_outcome) (req : request)
    (to : string) (attempts : list Z) (last_exc : option (Z * attempt_outcome))
    (t : transcript) : delivery * transcript :=
  match attempts with
  | [] =>
      match last_exc with
      | Some (k, failure) => (Propagated k failure, t)
      | None => (Delivered (mk_NotificationResult to ""), t)
      end
  | attempt :: rest =>
      let t := mk_transcript (published t ++ [req]) (sleeps t) in
      let again failure :=
        retry_loop publish req to rest (Some (attempt, failure))
                   (mk_transcript (published t) (sleeps t ++ [2 ^ attempt])) in
      match publish attempt req with
      | Published mid => (Delivered (mk_NotificationResult to (default "" mid)), t)
      | ClientFailure response =>
          match retryable response with
          | Raise e => (HandlerRaised attempt e, t)
          | Ok listed =>
              if listed && (attempt <? 4) then again (ClientFailure response)
              else (Propagated attempt (ClientFailure response), t)
          end
      | OtherFailure =>
          if attempt <? 4 then again OtherFailure
          else (Propagated attempt OtherFailure, t)
      | Interrupted => (Propagated attempt Interrupted, t)
      end
  end.

(** [_item_link(base_url, item_id)] *)
Definition _item_link (base_url item_id : string) : string :=
  Text.rstrip_char "/"%char base_url +:+ "/#/vault?itemId=" +:+ item_id.

Section Body.

(** [int(text)], the rendering of a due date
    ([due_at.astimezone(timezone.utc).strftime("%Y-%m-%d %H:%M UTC")],
    which depends on the platform and, for a naive datetime, on the local
    time zone), and the sign-off line of the message (it holds characters
    beyond code point 255). *)
Variable py_int : string -> result Z.
Variable due_text : datetime -> result string.
Variable sign_off : string.

Definition header : list string :=
  ["Hello,"; ""; "The following Vaultwarden entries are due for password rotation:"; ""].

Definition footer (summary : string) : list string :=
  [""; "Policy: " +:+ summary; "";
   "Please rotate these passwords at your earliest convenience.";
   "If you have already updated them, you can ignore this reminder.";
   ""; sign_off].

(** The lines one candidate adds to the message. *)
Definition entry (base_url : string) (candidate : RotationCandidate)
  : result (list string) :=
  due_str ← due_text (due_at candidate);
  let label := _label_for candidate in
  let full_id := str_or (id (item candidate)) "unknown-id" in
  Ok (["- " +:+ label +:+ " (due " +:+ due_str +:+ ")"; "  ID: " +:+ full_id]
      ++ (if negb (Str.eqb base_url "") && negb (Str.eqb full_id "unknown-id")
          then ["  Link: " +:+ _item_link base_url full_id]
          else [])).

(** The loop over [enumerate(items)]: [total] is [len(items)], [i] the
    index of the first of [rest]. *)
Fixpoint listing (max_lines : Z) (base_url : string) (total : Z) (i : Z)
    (rest : list RotationCandidate) : result (list string) :=
  match rest with
  | [] => Ok []
  | candidate :: rest' =>
      if max_lines <=? i
      then Ok ["... and " +:+ Str.of_Z (total - max_lines) +:+ " more"]
      else
        lines ← entry base_url candidate;
        more ← listing max_lines base_url total (i + 1) rest';
        Ok (lines ++ more)
  end.

(** The list [lines] that [_build_plaintext_body] joins. *)
Definition body_lines (environ : gmap string string)
    (its : list RotationCandidate) (summary : string) : result (list string) :=
  max_lines ← py_int (getenv environ "ROTATION_SNS_MAX_LINES" "100");
  let base_url := Str.strip (getenv environ "VAULTWARDEN_URL" "") in
  listed ← listing max_lines base_url (Z.of_nat (length its)) 0 its;
  Ok (header ++ listed ++ footer summary).

Definition _build_plaintext_body (environ : gmap string string) (to : string)
    (its : list RotationCandidate) (summary : string) : result string :=
  lines ← body_lines environ its summary;
  Ok (Str.join (String (Str.chr 10) "") lines).

End Body.

Module AWSSNSNotifier.

(** [send_rotation_notice(recipient, items, policy_summary)] of the SNS
    notifier: the subject and the body are built, then the message is
    published in up to five attempts.  (The scheduler above knows its
    notifier only by the record of the calls it makes to it.) *)
Definition send_rotation_notice
    (py_int : string -> result Z) (due_text : datetime -> result string)
    (sign_off : string) (environ : gmap string string)
    (config : NotificationConfig) (publish : Z -> request -> attempt_outcome)
    (to : string) (its : list RotationCandidate) (summary : string)
  : delivery * transcript :=
  match _build_plaintext_body py_int due_text sign_off environ to its summary with
  | Raise e => (NotBuilt e, mk_transcript [] [])
  | Ok body_text =>
      retry_loop publish
                 (mk_request (topic_arn config) (subject config) body_text to)
                 to (seqZ 0 5) None (mk_transcript [] [])
  end.

End AWSSNSNotifier.

(** ** [service.py] *)

(** [_split_env(name)] *)
Definition _split_env (environ : gmap string string) (name : string)
  : option (list string) :=
  let raw := getenv environ name "" in
  let parts :=
    map Str.strip
        (List.filter (fun value => negb (Str.eqb (Str.strip value) ""))
                     (Text.split ","%char raw)) in
  match parts with
  | [] => None
  | _ => Some parts
  end.

(** [_bool_env(name, default)] *)
Definition _bool_env (environ : gmap string string) (name : string) (fallback : bool)
  : bool :=
  match environ !! name with
  | None => fallback
  | Some raw => Text.among (Str.lower raw) ["1"; "true"; "yes"; "on"]
  end.

(** How [build_scheduler_from_env] can end before it constructs the
    client and the notifier. *)
Inductive startup (A : Type) : Type :=
  | Exit (status : Z)       (* [raise SystemExit(status)] *)
  | Crashed (e : exn)
  | Ready (a : A).
Arguments Exit {A} status.
Arguments Crashed {A} e.
Arguments Ready {A} a.

Definition required : list string :=
  ["VAULTWARDEN_URL"; "CLIENT_ID"; "CLIENT_SECRET"; "ROTATION_SNS_TOPIC_ARN";
   "AWS_SNS_REGION"].

(** The policy and the notification configuration that
    [build_scheduler_from_env] reads from the environment ([environ] is
    [os.environ] after [load_dotenv]). *)
Definition configuration_from_env (py_int : string -> result Z)
    (environ : gmap string string)
  : startup (RotationPolicy * NotificationConfig) :=
  if forallb (fun name => negb (Str.eqb (default "" (environ !! name)) "")) required
  then
    match py_int (getenv environ "ROTATION_FREQUENCY_DAYS" "90") with
    | Raise e => Crashed e
    | Ok frequency =>
        match py_int (getenv environ "ROTATION_GRACE_PERIOD_DAYS" "5") with
        | Raise e => Crashed e
        | Ok grace =>
            Ready
              (mk_RotationPolicy frequency grace
                 (_split_env environ "ROTATION_COLLECTION_IDS")
                 (_split_env environ "ROTATION_USER_IDS") true,
               mk_NotificationConfig
                 (default "" (environ !! "AWS_SNS_REGION"))
                 (default "" (environ !! "ROTATION_SNS_TOPIC_ARN"))
                 (environ !! "AWS_SNS_ACCESS_KEY_ID")
                 (environ !! "AWS_SNS_SECRET_ACCESS_KEY")
                 (environ !! "ROTATION_SUBJECT_PREFIX"))
        end
    end
  else Exit 1.

(** One pass of [execute_once] in [run_scheduler_loop]: an exception of
    the cycle is logged and dropped, and the world is as the cycle left
    it. *)
Definition execute_once
    (fromisoformat : string -> result datetime)
    (strptime : string -> string -> result datetime)
    (json_loads : string -> result pyobj)
    (resolver : VaultItem -> option string)
    (environ : gmap string string) (policy : RotationPolicy)
    (ciphers : result (list payload)) (utcnow : nat -> datetime) (now : datetime)
    (w : world) : world :=
  let dry_run := _bool_env environ "ROTATION_DRY_RUN" false in
  match ciphers with
  | Raise _ => w
  | Ok listed =>
      snd (run_once fromisoformat strptime json_loads resolver environ policy
                    listed utcnow now (negb dry_run) w)
  end.

(** ** Further reference instances *)

Module Instances.

(** Reads an optional minus sign and decimal digits. *)
Definition decimal (text : string) : result Z :=
  let digits l :=
    match l with
    | [] => None
    | _ => fold_left (fun acc c => a ← acc; d ← Reference.digit c; Some (a * 10 + d))
                     l (Some 0)
    end in
  Reference.or_ValueError
    match Str.chars text with
    | c :: rest =>
        if Ascii.eqb c "-"%char then n ← digits rest; Some (- n)
        else digits (c :: rest)
    | [] => None
    end.

(** Renders a datetime that is already in UTC. *)
Definition utc_minute (t : datetime) : result string :=
  if Datetime.eq_offset (tzinfo t) Datetime.utc then
    Ok (Str.zero_pad 4 (year t) +:+ "-" +:+ Str.zero_pad 2 (month t) +:+ "-"
        +:+ Str.zero_pad 2 (day t) +:+ " " +:+ Str.zero_pad 2 (hour t) +:+ ":"
        +:+ Str.zero_pad 2 (minute t) +:+ " UTC")
  else Raise ValueError.

Definition sign_off : string := "-- Vaultwarden".

(** An environment with everything [build_scheduler_from_env] asks for. *)
Definition complete : gmap string string :=
  {[ "VAULTWARDEN_URL" := "https://vault.example.org/";
     "CLIENT_ID" := "organization.1"; "CLIENT_SECRET" := "s3cret";
     "ROTATION_SNS_TOPIC_ARN" := "arn:aws:sns:eu-west-1:1:rotation";
     "AWS_SNS_REGION" := "eu-west-1";
     "ROTATION_USER_IDS" := " u1, ,u2 ,,";
     "ROTATION_SNS_MAX_LINES" := "1";
     "ROTATION_DRY_RUN" := "Yes" ]}.

(** A record with a rotation timestamp. *)
Definition raw_rotated : payload :=
  {[ "id" := PyStr "a1b2c3d4-0008"; "name" := PyStr "Router";
     "revisionDate" := PyStr "2024-03-01T00:00:00Z";
     "passwordRotation" := PyStr "2024-02-01T00:00:00Z";
     "lastPasswordRotation" := PyStr "2023-01-01T00:00:00Z" ]}.

Definition rotated : VaultItem :=
  mk_VaultItem "a1b2c3d4-0008" "Router" None [] (utc_datetime 2024 3 1 0 0 0)
               (Some (utc_datetime 2024 2 1 0 0 0)).

End Instances.

(** * Definitions used by the properties of the rest *)

(** Whether an outcome asks for another attempt, the attempt number
    permitting. *)
Definition asks_retry (o : attempt_outcome) : bool :=
  match o with
  | ClientFailure response =>
      match retryable response with
      | Ok listed => listed
      | Raise _ => false
      end
  | OtherFailure => true
  | Published _ | Interrupted => false
  end.

(** How the notice ends when attempt [k] is the last one made. *)
Definition ending (to : string) (k : Z) (o : attempt_outcome) : delivery :=
  match o with
  | Published mid => Delivered (mk_NotificationResult to (default "" mid))
  | ClientFailure response =>
      match retryable response with
      | Ok _ => Propagated k o
      | Raise e => HandlerRaised k e
      end
  | failure => Propagated k failure
  end.

(** The line that stands for the candidates left out of a message. *)
Definition overflow_line (max_lines total : Z) : string :=
  "... and " +:+ Str.of_Z (total - max_lines) +:+ " more".

(** A value that [str.strip] leaves alone and that is not empty. *)
Definition tidy (value : string) : Prop := value <> "" /\ Str.strip value = value.

(** The list does not start with a character that [p] holds of. *)
Definition clean (p : ascii -> bool) (l : list ascii) : Prop :=
  match l with
  | [] => True
  | c :: _ => p c = false
  end.

(** Whether the recipient lookup gives the candidate a recipient. *)
Definition resolvable (resolver : VaultItem -> option string)
    (c : RotationCandidate) : bool :=
  match resolver (item c) with
  | Some email => negb (Str.eqb email "")
  | None => false
  end.

(** Whether a filter keeps the record, a raising test counting as no. *)
Definition keeps (keep : payload -> result bool) (c : payload) : bool :=
  match keep c with
  | Ok true => true
  | _ => false
  end.

(** * Properties *)

(** ** The library models *)

Example sha256_abc :
  Sha256.hexdigest (Str.encode_utf8 "abc")
  = "ba7816bf8f01cfea414140de5dae2223b00361a396177a9cb410ff61f20015ad".
Proof. vm_compute. reflexivity. Qed.

Example sha256_empty :
  Sha256.hexdigest []
  = "e3b0c44298fc1c149afbf4c8996fb92427ae41e4649b934ca495991b7852b855".
Proof. vm_compute. reflexivity. Qed.

Example sha256_two_blocks :
  Sha256.hexdigest
    (Str.encode_utf8 "abcdbcdecdefdefgefghfghighijhijkijkljklmklmnlmnomnopnopq")
  = "248d6a61d20638b8e5c026930c3e6039a33ce45964ff2167f6ecedd419db06c1".
Proof. vm_compute. reflexivity. Qed.

Example ord_roundtrip_2024 : Datetime.ord2ymd (Datetime.ymd2ord 2024 2 29) = (2024, 2, 29).
Proof. reflexivity. Qed.

Example ord_last_day : Datetime.ymd2ord 9999 12 31 = Datetime.MAXORDINAL.
Proof. reflexivity. Qed.

Example add_90_days :
  (d ← Timedelta.of_days 90; Datetime.add (utc_datetime 2024 1 1 0 0 0) d)
  = Ok (utc_datetime 2024 3 31 0 0 0).
Proof. reflexivity. Qed.

Example isoformat_utc :
  Datetime.isoformat (utc_datetime 2024 3 31 0 0 0) = "2024-03-31T00:00:00+00:00".
Proof. reflexivity. Qed.

Example dumps_sorts_keys :
  Json.dumps true (PyList [PyDict [("id", PyStr "a"); ("due", PyStr "x")]])
  = Str.requote "[{'due': 'x', 'id': 'a'}]".
Proof. reflexivity. Qed.

Example str_of_missing : Obj.str PyNone = "None".
Proof. reflexivity. Qed.

Example reference_iso_utc :
  Reference.fromisoformat "2024-01-01T00:00:00+00:00" = Ok (utc_datetime 2024 1 1 0 0 0).
Proof. reflexivity. Qed.

Example reference_iso_rejects : Reference.fromisoformat "None" = Raise ValueError.
Proof. reflexivity. Qed.

Example reference_loads_state :
  Reference.json_loads (state_document "00ff") = Ok (PyDict [("last_hash", PyStr "00ff")]).
Proof. reflexivity. Qed.


(** ** Candidate selection *)

Lemma of_days_inv n d :
  Timedelta.of_days n = Ok d -> d = mk_timedelta n 0 0.
Proof.
  unfold Timedelta.of_days, Timedelta.new.
  change (0 + 0 / 1000000) with 0. change (0 / 86400) with 0.
  change (0 mod 1000000) with 0. change (0 mod 86400) with 0.
  rewrite Z.add_0_r. destruct (Z.abs n <=? Timedelta.MAX_DELTA_DAYS); congruence.
Qed.

Lemma sub_of_days f g fd gd :
  Timedelta.of_days f = Ok fd -> Timedelta.of_days g = Ok gd ->
  Timedelta.sub fd gd = Timedelta.of_days (f - g).
Proof.
  intros Hf Hg. apply of_days_inv in Hf. apply of_days_inv in Hg. subst.
  reflexivity.
Qed.

Lemma select_loop_rule policy now fd th items verdicts :
  Timedelta.of_days (frequency_days policy) = Ok fd ->
  Timedelta.of_days (frequency_days policy - grace_period_days policy) = Ok th ->
  Forall2 (fun it v => due_rule policy now it = Ok v) items verdicts ->
  select_loop now fd th items = Ok (omap (fun v => v) verdicts).
Proof.
  intros Hfd Hth Hall. induction Hall as [|it v items verdicts Hv _ IH]; [reflexivity|].
  unfold due_rule in Hv. rewrite Hfd, Hth in Hv. cbn in Hv.
  cbn [select_loop].
  destruct (Datetime.add (effective_rotation_source it) fd) as [due|]; [|discriminate].
  cbn in Hv |- *.
  destruct (Datetime.add (effective_rotation_source it) th) as [reminder|]; [|discriminate].
  cbn in Hv |- *.
  destruct (Datetime.ge now reminder) as [is_due|]; [|discriminate].
  cbn in Hv |- *. rewrite IH. cbn.
  destruct is_due; injection Hv as <-; reflexivity.
Qed.

(** C2, as it holds.  Whenever the policy's deltas exist and the rule of
    the specification is defined on every item (its sums are representable
    datetimes that [now] can be ordered against), the selector returns, in
    input order, exactly the candidates the rule gives: an item is emitted
    when and only when
    [now >= source + (frequency_days - grace_period_days) days], and its
    [due_at] is the hard deadline [source + frequency_days days]. *)
Theorem select_due_items_follows_rule
    (policy : RotationPolicy) (now : datetime)
    (items : list VaultItem) (verdicts : list (option RotationCandidate))
    (fd gd th : timedelta) :
  frequency_delta policy = Ok fd ->
  grace_delta policy = Ok gd ->
  Timedelta.of_days (frequency_days policy - grace_period_days policy) = Ok th ->
  Forall2 (fun it v => due_rule policy now it = Ok v) items verdicts ->
  _select_due_items policy now items = Ok (omap (fun v => v) verdicts).
Proof.
  intros Hfd Hgd Hth Hall. unfold _select_due_items.
  rewrite Hfd, Hgd. cbn.
  unfold frequency_delta in Hfd. unfold grace_delta in Hgd.
  rewrite (sub_of_days _ _ _ _ Hfd Hgd), Hth. cbn.
  eapply select_loop_rule; eassumption.
Qed.

(** ** Scenarios *)

Example normalises_raw_a :
  from_api Reference.fromisoformat Reference.strptime Scenario.day_85 Scenario.raw_a
  = Ok Scenario.login_a.
Proof. vm_compute. reflexivity. Qed.

Example due_on_day_85 :
  _select_due_items Scenario.policy Scenario.day_85 [Scenario.login_a]
  = Ok [Scenario.due_a].
Proof. vm_compute. reflexivity. Qed.

Example not_due_on_day_79 :
  _select_due_items Scenario.policy Scenario.day_79 [Scenario.login_a] = Ok [].
Proof. vm_compute. reflexivity. Qed.

Lemma select_due_items_follows_rule_witness :
  _select_due_items Scenario.policy Scenario.day_85
                    [Scenario.login_a; Scenario.login_b]
  = Ok [Scenario.due_a; Scenario.due_b].
Proof.
  apply (select_due_items_follows_rule Scenario.policy Scenario.day_85
           [Scenario.login_a; Scenario.login_b]
           [Some Scenario.due_a; Some Scenario.due_b]
           (mk_timedelta 90 0 0) (mk_timedelta 5 0 0) (mk_timedelta 85 0 0)).
  - reflexivity.
  - reflexivity.
  - reflexivity.
  - repeat constructor.
Defined.

(** The reminder test of the specification holds for the item, and the
    selector emits no candidate: computing the deadline raises. *)
Lemma select_due_items_deadline_out_of_range :
  (early ← Timedelta.of_days (frequency_days far_policy - grace_period_days far_policy);
   reminder ← Datetime.add (effective_rotation_source Scenario.login_a) early;
   Datetime.ge Scenario.day_85 reminder) = Ok true
  /\ _select_due_items far_policy Scenario.day_85 [Scenario.login_a]
     = Raise OverflowError.
Proof. split; vm_compute; reflexivity. Qed.

(** A timestamp without an offset is parsed to a naive datetime, which
    the selector cannot order against an aware [now]. *)
Example naive_revision_date :
  from_api Reference.fromisoformat Reference.strptime Scenario.day_85
           {[ "id" := PyStr "n"; "revisionDate" := PyStr "2024-01-01T00:00:00" ]}
  = Ok (mk_VaultItem "n" "Unnamed entry" None []
          (mk_datetime 2024 1 1 0 0 0 0 None) None).
Proof. vm_compute. reflexivity. Qed.

Example naive_item_not_comparable :
  _select_due_items Scenario.policy Scenario.day_85
    [mk_VaultItem "n" "Unnamed entry" None [] (mk_datetime 2024 1 1 0 0 0 0 None) None]
  = Raise TypeError.
Proof. vm_compute. reflexivity. Qed.

(** ** Fingerprints *)

Example digest_text :
  Json.dumps true (digest_payload [Scenario.due_a])
  = Str.requote "[{'due': '2024-03-31T00:00:00+00:00', 'id': 'a1b2c3d4-0001'}]".
Proof. vm_compute. reflexivity. Qed.

(** C1.  The fingerprint depends on the order of the candidates: the same
    two candidates, listed in the two possible orders, hash differently. *)
Theorem fingerprint_depends_on_order :
  [Scenario.due_a; Scenario.due_b] ≡ₚ [Scenario.due_b; Scenario.due_a]
  /\ fingerprint [Scenario.due_a; Scenario.due_b]
     <> fingerprint [Scenario.due_b; Scenario.due_a].
Proof.
  split; [apply Permutation_swap|].
  vm_compute. discriminate.
Qed.

(** ** The digest tracker *)

Section Digest.

Variable json_loads : string -> result pyobj.
Variable user_email_resolver : VaultItem -> option string.

Lemma eq_str_true v s : Obj.eq_str v s = true <-> v = PyStr s.
Proof.
  destruct v; cbn; try (split; [discriminate | congruence]).
  unfold Str.eqb. rewrite String.eqb_eq. split; congruence.
Qed.

Lemma eq_str_false v s : Obj.eq_str v s = false <-> v <> PyStr s.
Proof.
  rewrite <- eq_str_true. destruct (Obj.eq_str v s); split; congruence.
Qed.

(** A path that [write_text] accepts can be reached. *)
Lemma writable_no_fault f path : path ∉ unwritable f <-> faults f !! path = None.
Proof. unfold unwritable. apply not_elem_of_dom. Qed.

Lemma write_text_writable f path content :
  path ∉ unwritable f ->
  write_text f path content
  = (Ok tt, mk_filesystem (<[path := Text content]> (files f)) (faults f)).
Proof. intros Hw. apply writable_no_fault in Hw. unfold write_text. now rewrite Hw. Qed.

Lemma stored_hash_writable f path :
  path ∉ unwritable f -> exists prev, stored_hash json_loads f path = Ok prev.
Proof.
  intros Hw. apply writable_no_fault in Hw. unfold stored_hash, path_exists.
  rewrite Hw. cbn. eauto.
Qed.

Lemma stored_hash_no_access f path :
  faults f !! path = Some NoAccess -> stored_hash json_loads f path = Raise OSError.
Proof. intros Hf. unfold stored_hash, path_exists. now rewrite Hf. Qed.

Lemma digest_changed_when_different environ f candidates prev :
  stored_hash json_loads f (state_file environ) = Ok prev ->
  prev <> PyStr (fingerprint candidates) ->
  _digest_has_changed json_loads environ f candidates
  = (Ok true,
     snd (write_text f (state_file environ) (state_document (fingerprint candidates)))).
Proof.
  intros Hprev Hne. apply eq_str_false in Hne. unfold _digest_has_changed.
  rewrite Hprev, Hne. reflexivity.
Qed.

Lemma digest_suppressed environ f candidates :
  stored_hash json_loads f (state_file environ) = Ok (PyStr (fingerprint candidates)) ->
  _digest_has_changed json_loads environ f candidates = (Ok false, f).
Proof.
  intros Heq. unfold _digest_has_changed. rewrite Heq.
  now rewrite (proj2 (eq_str_true _ _) eq_refl).
Qed.

(** A run is suppressed only when the stored hash is the fingerprint, and
    then nothing is written. *)
Lemma digest_suppressed_inv environ f candidates f' :
  _digest_has_changed json_loads environ f candidates = (Ok false, f') ->
  stored_hash json_loads f (state_file environ) = Ok (PyStr (fingerprint candidates))
  /\ f' = f.
Proof.
  unfold _digest_has_changed.
  destruct (stored_hash _ _ _) as [prev|e]; [|discriminate].
  destruct (Obj.eq_str _ _) eqn:E; [|discriminate].
  intros [= <-]. apply eq_str_true in E. subst prev. split; reflexivity.
Qed.

(** The tracker raises only out of [path.exists()], and then it has
    touched nothing. *)
Lemma digest_raises environ f candidates e f' :
  _digest_has_changed json_loads environ f candidates = (Raise e, f') ->
  stored_hash json_loads f (state_file environ) = Raise e /\ f' = f.
Proof.
  unfold _digest_has_changed.
  destruct (stored_hash _ _ _) as [prev|e']; [destruct (Obj.eq_str _ _); discriminate|].
  intros [= <- <-]. split; reflexivity.
Qed.

Lemma dispatch_digest_mode environ policy w candidates :
  digest_mode environ = true -> candidates <> [] ->
  _dispatch_notifications json_loads user_email_resolver environ policy w candidates
  = let r := _digest_has_changed json_loads environ (fs w) candidates in
    (_ ← fst r; Ok tt,
     mk_world (snd r)
       (outbox w ++ (match fst r with
                     | Ok true => [digest_notice policy candidates]
                     | _ => []
                     end))).
Proof.
  intros Hmode Hne. unfold _dispatch_notifications. rewrite Hmode.
  destruct candidates as [|c rest]; [congruence|].
  destruct (_digest_has_changed _ _ _ _) as [[[|]|e] f']; cbn.
  - reflexivity.
  - now rewrite app_nil_r.
  - now rewrite app_nil_r.
Qed.

Lemma stored_hash_after_write environ f digest :
  state_file environ ∉ unwritable f ->
  json_loads (state_document digest) = Ok (PyDict [("last_hash", PyStr digest)]) ->
  stored_hash json_loads
    (snd (write_text f (state_file environ) (state_document digest)))
    (state_file environ)
  = Ok (PyStr digest).
Proof.
  intros Hw Hloads. rewrite (write_text_writable _ _ _ Hw). cbn [snd].
  apply writable_no_fault in Hw.
  unfold stored_hash, path_exists, read_text. cbn. rewrite Hw. cbn.
  rewrite lookup_insert_eq. rewrite bool_decide_eq_true_2 by eauto.
  cbn. rewrite Hloads. reflexivity.
Qed.

End Digest.

(** C10.  When the stored hash is the computed fingerprint,
    [_digest_has_changed] answers [False] and hands the file system back
    as it found it: nothing is written, and the state file reads as
    before. *)
Theorem digest_unchanged_leaves_state
    (json_loads : string -> result pyobj) (environ : gmap string string)
    (f : filesystem) (candidates : list RotationCandidate) :
  stored_hash json_loads f (state_file environ) = Ok (PyStr (fingerprint candidates)) ->
  _digest_has_changed json_loads environ f candidates = (Ok false, f)
  /\ read_text (snd (_digest_has_changed json_loads environ f candidates))
               (state_file environ)
     = read_text f (state_file environ).
Proof.
  intros Heq. rewrite (digest_suppressed _ _ _ _ Heq). split; reflexivity.
Qed.

(** ** Evaluation cycles *)

Section Cycle.

Variable fromisoformat : string -> result datetime.
Variable strptime : string -> string -> result datetime.
Variable json_loads : string -> result pyobj.
Variable user_email_resolver : VaultItem -> option string.

Abbreviation run := (run_once fromisoformat strptime json_loads user_email_resolver).
Abbreviation dispatch := (_dispatch_notifications json_loads user_email_resolver).
Abbreviation selected := (cycle_candidates fromisoformat strptime).

Lemma run_once_unfold environ policy ciphers utcnow now send w :
  run environ policy ciphers utcnow now send w
  = match selected policy ciphers utcnow now with
    | Raise e => (Raise e, w)
    | Ok candidates =>
        if send && match candidates with [] => false | _ => true end
        then (_ ← fst (dispatch environ policy w candidates); Ok candidates,
              snd (dispatch environ policy w candidates))
        else (Ok candidates, w)
    end.
Proof.
  unfold run_once, cycle_candidates. cbv zeta.
  destruct (_ ≫= _) as [cs|]; [|reflexivity].
  destruct (send && _); [|reflexivity].
  now destruct (_dispatch_notifications _ _ _ _ _ _).
Qed.

(** The dispatch raises only in digest mode, out of [path.exists()], and
    has then changed nothing. *)
Lemma dispatch_raises environ policy w candidates e :
  fst (dispatch environ policy w candidates) = Raise e ->
  stored_hash json_loads (fs w) (state_file environ) = Raise e
  /\ snd (dispatch environ policy w candidates) = w.
Proof.
  unfold _dispatch_notifications. destruct candidates as [|c rest]; [discriminate|].
  destruct (digest_mode environ); [|discriminate].
  destruct (_digest_has_changed _ _ _ _) as [[[|]|e'] f'] eqn:Hd; cbn;
    try discriminate.
  intros [= ->]. apply digest_raises in Hd as [Hd ->].
  split; [exact Hd | now destruct w].
Qed.

Lemma run_once_inv environ policy ciphers utcnow now send w candidates w' :
  run environ policy ciphers utcnow now send w = (Ok candidates, w') ->
  selected policy ciphers utcnow now = Ok candidates
  /\ (if send && match candidates with [] => false | _ => true end
      then dispatch environ policy w candidates = (Ok tt, w')
      else w' = w).
Proof.
  rewrite run_once_unfold.
  destruct (cycle_candidates _ _ _ _ _ _) as [cs|]; cbn; [|discriminate].
  destruct (send && match cs with [] => false | _ => true end) eqn:Hs.
  - destruct (dispatch environ policy w cs) as [[[]|e] w1] eqn:Hd; cbn;
      [|discriminate].
    intros [= <- <-]. rewrite Hs. split; [reflexivity | exact Hd].
  - intros [= <- <-]. rewrite Hs. split; reflexivity.
Qed.

Lemma nonempty_test {A} (l : list A) :
  l <> [] -> match l with [] => false | _ => true end = true.
Proof. destruct l; congruence. Qed.

(** C9.  A cycle that selects no candidate leaves the world as it was:
    the notifier receives no call (and the state file is not touched),
    whatever the policy and the mode. *)
Theorem no_candidates_no_dispatch
    (environ : gmap string string) (policy : RotationPolicy)
    (ciphers : list payload) (utcnow : nat -> datetime) (now : datetime)
    (send : bool) (w w' : world) :
  run environ policy ciphers utcnow now send w = (Ok [], w') ->
  outbox w' = outbox w /\ w' = w.
Proof.
  intros Hrun. apply run_once_inv in Hrun as [_ Hw].
  rewrite andb_false_r in Hw. subst w'. split; reflexivity.
Qed.

Lemma dispatch_nothing_for_empty environ policy w :
  dispatch environ policy w [] = (Ok tt, w).
Proof. reflexivity. Qed.

(** Past the test [path.exists()] the persistence is best-effort.  When
    the prior state cannot be read (the file is missing, unreadable, not
    JSON, or not a JSON object) the tracker proceeds as with no prior
    state and reports a change.  When the new fingerprint cannot be
    written the error is swallowed: the tracker still reports a change,
    the file is left as the failed write left it, and a digest-mode cycle
    that selected the candidates completes with the notification sent. *)
Lemma persistence_past_the_probe
    (environ : gmap string string) (policy : RotationPolicy)
    (ciphers : list payload) (utcnow : nat -> datetime) (now : datetime)
    (w : world) (candidates : list RotationCandidate) :
  ((path_exists (fs w) (state_file environ) = Ok false
    \/ (exists there, path_exists (fs w) (state_file environ) = Ok there)
       /\ exists e,
            (text ← read_text (fs w) (state_file environ);
             doc ← json_loads text; Obj.get doc "last_hash") = Raise e) ->
   stored_hash json_loads (fs w) (state_file environ) = Ok PyNone
   /\ fst (_digest_has_changed json_loads environ (fs w) candidates) = Ok true)
  /\
  (forall prev e,
     stored_hash json_loads (fs w) (state_file environ) = Ok prev ->
     prev <> PyStr (fingerprint candidates) ->
     fst (write_text (fs w) (state_file environ)
                     (state_document (fingerprint candidates))) = Raise e ->
     let left :=
       snd (write_text (fs w) (state_file environ)
                       (state_document (fingerprint candidates))) in
     _digest_has_changed json_loads environ (fs w) candidates = (Ok true, left)
     /\ (digest_mode environ = true -> candidates <> [] ->
         selected policy ciphers utcnow now = Ok candidates ->
         run environ policy ciphers utcnow now true w
         = (Ok candidates,
            mk_world left (outbox w ++ [digest_notice policy candidates])))).
Proof.
  split.
  - intros Hread.
    assert (Hnone : stored_hash json_loads (fs w) (state_file environ) = Ok PyNone).
    { unfold stored_hash. destruct Hread as [-> | [[there ->] [e ->]]]; [reflexivity|].
      cbn. now destruct there. }
    split; [exact Hnone|].
    rewrite (digest_changed_when_different _ _ _ _ _ Hnone); [reflexivity|discriminate].
  - intros prev e Hprev Hne Hwrite left.
    assert (Hchanged : _digest_has_changed json_loads environ (fs w) candidates
                       = (Ok true, left)).
    { now rewrite (digest_changed_when_different _ _ _ _ _ Hprev Hne). }
    split; [exact Hchanged|].
    intros Hmode Hcands Hsel. rewrite run_once_unfold, Hsel. cbn.
    rewrite (nonempty_test _ Hcands).
    rewrite (dispatch_digest_mode _ _ _ _ _ _ Hmode Hcands), Hchanged.
    reflexivity.
Qed.

(** C8, where the code departs from it.  The test [path.exists()] on the
    state file is made outside the [try]: when the state location cannot
    be reached (its directory may not be searched, its name is too long),
    the tracker raises instead of proceeding as with no prior state, and a
    digest-mode cycle that selected candidates is aborted with nothing
    sent. *)
Theorem state_probe_aborts_the_cycle
    (environ : gmap string string) (policy : RotationPolicy)
    (ciphers : list payload) (utcnow : nat -> datetime) (now : datetime)
    (w : world) (candidates : list RotationCandidate) :
  faults (fs w) !! state_file environ = Some NoAccess ->
  digest_mode environ = true ->
  candidates <> [] ->
  selected policy ciphers utcnow now = Ok candidates ->
  _digest_has_changed json_loads environ (fs w) candidates = (Raise OSError, fs w)
  /\ dispatch environ policy w candidates = (Raise OSError, w)
  /\ run environ policy ciphers utcnow now true w = (Raise OSError, w).
Proof.
  intros Hfault Hmode Hcands Hsel.
  assert (Hd : _digest_has_changed json_loads environ (fs w) candidates
               = (Raise OSError, fs w)).
  { unfold _digest_has_changed. now rewrite (stored_hash_no_access _ _ _ Hfault). }
  assert (Hdispatch : dispatch environ policy w candidates = (Raise OSError, w)).
  { rewrite (dispatch_digest_mode _ _ _ _ _ _ Hmode Hcands), Hd. cbn.
    rewrite app_nil_r. now destruct w. }
  split; [exact Hd|]. split; [exact Hdispatch|].
  rewrite run_once_unfold, Hsel. cbn.
  rewrite (nonempty_test _ Hcands), Hdispatch. reflexivity.
Qed.

(** C3, as it holds.  In digest mode, two consecutive cycles that select
    the same non-empty candidate list, starting from a state location that
    does not already hold that list's fingerprint and that can be written
    and read back, send exactly one notification in total: the first
    cycle sends it, the second finds the fingerprint unchanged and leaves
    the world as it is. *)
Theorem two_cycles_one_notification
    (environ : gmap string string) (policy : RotationPolicy)
    (ciphers1 ciphers2 : list payload) (utcnow1 utcnow2 : nat -> datetime)
    (now1 now2 : datetime) (w0 w1 w2 : world)
    (candidates : list RotationCandidate) :
  digest_mode environ = true ->
  candidates <> [] ->
  stored_hash json_loads (fs w0) (state_file environ)
    <> Ok (PyStr (fingerprint candidates)) ->
  state_file environ ∉ unwritable (fs w0) ->
  json_loads (state_document (fingerprint candidates))
    = Ok (PyDict [("last_hash", PyStr (fingerprint candidates))]) ->
  run environ policy ciphers1 utcnow1 now1 true w0 = (Ok candidates, w1) ->
  run environ policy ciphers2 utcnow2 now2 true w1 = (Ok candidates, w2) ->
  outbox w1 = outbox w0 ++ [digest_notice policy candidates]
  /\ w2 = w1
  /\ outbox w2 = outbox w0 ++ [digest_notice policy candidates].
Proof.
  intros Hmode Hcands Hne Hw Hloads Hrun1 Hrun2.
  apply run_once_inv in Hrun1 as [_ Hw1]. apply run_once_inv in Hrun2 as [_ Hw2].
  cbn in Hw1, Hw2. rewrite (nonempty_test _ Hcands) in Hw1, Hw2.
  rewrite (dispatch_digest_mode _ _ _ _ _ _ Hmode Hcands) in Hw1.
  rewrite (dispatch_digest_mode _ _ _ _ _ _ Hmode Hcands) in Hw2.
  destruct (stored_hash_writable json_loads _ _ Hw) as [prev Hprev].
  assert (Hprev' : prev <> PyStr (fingerprint candidates)) by congruence.
  rewrite (digest_changed_when_different _ _ _ _ _ Hprev Hprev') in Hw1.
  cbn in Hw1. injection Hw1 as Hw1.
  assert (Hstored : stored_hash json_loads (fs w1) (state_file environ)
                    = Ok (PyStr (fingerprint candidates))).
  { subst w1. cbn. now apply stored_hash_after_write. }
  rewrite (digest_suppressed _ _ _ _ Hstored) in Hw2. cbn in Hw2.
  rewrite app_nil_r in Hw2. injection Hw2 as Hw2.
  assert (Hsame : w2 = w1) by (subst w2; destruct w1; reflexivity).
  subst w1. cbn. split; [reflexivity|]. split; [exact Hsame|].
  rewrite Hsame. reflexivity.
Qed.

End Cycle.

(** ** The digest scenarios, evaluated *)

Example first_cycle_sends_digest :
  Scenario.cycle ∅ [Scenario.raw_a] Scenario.day_85 Scenario.fresh
  = (Ok [Scenario.due_a], Scenario.after_first).
Proof. vm_compute. reflexivity. Qed.

Example second_cycle_is_silent :
  Scenario.cycle ∅ [Scenario.raw_a] Scenario.day_85 Scenario.after_first
  = (Ok [Scenario.due_a], Scenario.after_first).
Proof. vm_compute. reflexivity. Qed.

Lemma two_cycles_one_notification_witness :
  outbox Scenario.after_first
  = outbox Scenario.fresh ++ [digest_notice Scenario.policy [Scenario.due_a]]
  /\ Scenario.after_first = Scenario.after_first
  /\ outbox Scenario.after_first
     = outbox Scenario.fresh ++ [digest_notice Scenario.policy [Scenario.due_a]].
Proof.
  apply (two_cycles_one_notification
           Reference.fromisoformat Reference.strptime Reference.json_loads
           Reference.resolver ∅ Scenario.policy
           [Scenario.raw_a] [Scenario.raw_a] Scenario.clock Scenario.clock
           Scenario.day_85 Scenario.day_85
           Scenario.fresh Scenario.after_first Scenario.after_first
           [Scenario.due_a]).
  - reflexivity.
  - discriminate.
  - vm_compute. discriminate.
  - vm_compute. discriminate.
  - vm_compute. reflexivity.
  - vm_compute. reflexivity.
  - vm_compute. reflexivity.
Defined.

(** With a state file that cannot be written, the same two cycles send
    two notifications. *)
Lemma two_cycles_two_notifications :
  digest_mode ∅ = true
  /\ exists w1 w2,
       Scenario.cycle ∅ [Scenario.raw_a] Scenario.day_85 Scenario.read_only
       = (Ok [Scenario.due_a], w1)
       /\ Scenario.cycle ∅ [Scenario.raw_a] Scenario.day_85 w1
          = (Ok [Scenario.due_a], w2)
       /\ outbox w2 = [digest_notice Scenario.policy [Scenario.due_a];
                       digest_notice Scenario.policy [Scenario.due_a]]
       /\ length (outbox w2) <> 1%nat.
Proof.
  split; [reflexivity|].
  exists (mk_world (fs Scenario.read_only) [digest_notice Scenario.policy [Scenario.due_a]]).
  exists (mk_world (fs Scenario.read_only)
            [digest_notice Scenario.policy [Scenario.due_a];
             digest_notice Scenario.policy [Scenario.due_a]]).
  repeat split; try (vm_compute; reflexivity).
  cbn. discriminate.
Qed.

(** A write that fails half-way leaves a state file that no longer holds
    the old fingerprint. *)
Example torn_write_destroys_the_state :
  let f := mk_filesystem (files (fs Scenario.after_first))
                         {[ ".rotation_state.json" := WriteFails 12 ]} in
  _digest_has_changed Reference.json_loads ∅ f [Scenario.due_b]
  = (Ok true,
     mk_filesystem {[ ".rotation_state.json" := Text (Str.requote "{'last_hash'") ]}
                   {[ ".rotation_state.json" := WriteFails 12 ]}).
Proof. vm_compute. reflexivity. Qed.

Lemma state_probe_aborts_the_cycle_witness :
  _digest_has_changed Reference.json_loads ∅ (fs Scenario.locked) [Scenario.due_a]
  = (Raise OSError, fs Scenario.locked)
  /\ _dispatch_notifications Reference.json_loads Reference.resolver ∅
       Scenario.policy Scenario.locked [Scenario.due_a]
     = (Raise OSError, Scenario.locked)
  /\ Scenario.cycle ∅ [Scenario.raw_a] Scenario.day_85 Scenario.locked
     = (Raise OSError, Scenario.locked).
Proof.
  apply (state_probe_aborts_the_cycle
           Reference.fromisoformat Reference.strptime Reference.json_loads
           Reference.resolver ∅ Scenario.policy [Scenario.raw_a] Scenario.clock
           Scenario.day_85 Scenario.locked [Scenario.due_a]).
  - reflexivity.
  - reflexivity.
  - discriminate.
  - vm_compute. reflexivity.
Defined.

Lemma no_candidates_no_dispatch_witness :
  Scenario.cycle ∅ [Scenario.raw_a] Scenario.day_79 Scenario.after_first
  = (Ok [], Scenario.after_first)
  /\ outbox Scenario.after_first = outbox Scenario.after_first
  /\ Scenario.after_first = Scenario.after_first.
Proof.
  assert (Hrun : Scenario.cycle ∅ [Scenario.raw_a] Scenario.day_79 Scenario.after_first
                 = (Ok [], Scenario.after_first)) by (vm_compute; reflexivity).
  split; [exact Hrun|].
  exact (no_candidates_no_dispatch
           Reference.fromisoformat Reference.strptime Reference.json_loads
           Reference.resolver ∅ Scenario.policy [Scenario.raw_a] Scenario.clock
           Scenario.day_79 true Scenario.after_first Scenario.after_first Hrun).
Defined.

Lemma digest_unchanged_leaves_state_witness :
  stored_hash Reference.json_loads (fs Scenario.after_first) (state_file ∅)
  = Ok (PyStr (fingerprint [Scenario.due_a]))
  /\ _digest_has_changed Reference.json_loads ∅ (fs Scenario.after_first)
       [Scenario.due_a]
     = (Ok false, fs Scenario.after_first).
Proof.
  assert (Hstored : stored_hash Reference.json_loads (fs Scenario.after_first)
                      (state_file ∅)
                    = Ok (PyStr (fingerprint [Scenario.due_a])))
    by (vm_compute; reflexivity).
  split; [exact Hstored|].
  exact (proj1 (digest_unchanged_leaves_state Reference.json_loads ∅
                  (fs Scenario.after_first) [Scenario.due_a] Hstored)).
Defined.

(** ** Per-recipient grouping *)

Section Grouping.

Variable resolver : VaultItem -> option string.

Abbreviation grouped := (group_by_recipient resolver).
Abbreviation to := (resolves_to resolver).

Lemma filter_snoc (f : RotationCandidate -> bool) l c :
  List.filter f (l ++ [c]) = List.filter f l ++ (if f c then [c] else []).
Proof. rewrite List.filter_app. cbn. destruct (f c); reflexivity. Qed.

Lemma group_add_present email c (f : string -> list RotationCandidate) keys :
  NoDup keys -> email ∈ keys ->
  group_add email c (map (fun r => (r, f r)) keys)
  = map (fun r => (r, if Str.eqb r email then f r ++ [c] else f r)) keys.
Proof.
  induction keys as [|k keys IH]; intros Hnd Hin.
  - inversion Hin.
  - apply NoDup_cons in Hnd as [Hk Hnd]. cbn.
    unfold Str.eqb in *. destruct (String.eqb_spec k email) as [->|Hne].
    + f_equal. apply map_ext_in. intros r Hr.
      destruct (String.eqb_spec r email) as [->|_]; [|reflexivity].
      exfalso. apply Hk. now apply list_elem_of_In.
    + f_equal. apply IH; [exact Hnd|].
      apply elem_of_cons in Hin as [->|Hin]; [congruence | exact Hin].
Qed.

Lemma group_add_absent email c (f : string -> list RotationCandidate) keys :
  email ∉ keys ->
  group_add email c (map (fun r => (r, f r)) keys)
  = map (fun r => (r, f r)) keys ++ [(email, [c])].
Proof.
  induction keys as [|k keys IH]; intros Hnot; [reflexivity|].
  apply not_elem_of_cons in Hnot as [Hne Hnot]. cbn.
  unfold Str.eqb in *. destruct (String.eqb_spec k email) as [->|_]; [congruence|].
  f_equal. now apply IH.
Qed.

Lemma filter_none (f : RotationCandidate -> bool) l :
  (forall c, c ∈ l -> f c = false) -> List.filter f l = [].
Proof.
  induction l as [|c l IH]; intros H; [reflexivity|]. cbn.
  rewrite (H c) by apply list_elem_of_here.
  apply IH. intros c' Hc'. apply H. now apply list_elem_of_further.
Qed.

(** The groups the loop builds are the distinct recipients, each with
    exactly the candidates that resolve to it. *)
Lemma grouping_spec candidates :
  grouped candidates
  = map (fun r => (r, List.filter (to r) candidates)) (recipients resolver candidates)
  /\ NoDup (recipients resolver candidates)
  /\ (forall r, r ∈ recipients resolver candidates
                <-> r <> "" /\ exists c, c ∈ candidates /\ resolver (item c) = Some r).
Proof.
  induction candidates as [|c l (IHg & IHnd & IHin)] using rev_ind.
  - split; [reflexivity|]. split; [constructor|].
    intros r. split; [intros H; inversion H|]. intros [_ (c & Hc & _)]. inversion Hc.
  - unfold group_by_recipient, recipients in *. rewrite !fold_left_app. cbn.
    fold (recipients resolver l) in *. unfold recipients in *.
    set (keys := fold_left (recipient_step resolver) l []) in *.
    rewrite IHg. unfold group_step, recipient_step.
    assert (Hstale : forall r, r ∈ keys -> resolver (item c) <> Some r ->
                     List.filter (to r) (l ++ [c]) = List.filter (to r) l).
    { intros r _ Hne. rewrite filter_snoc. unfold resolves_to at 2.
      destruct (resolver (item c)) as [e|]; [|now rewrite app_nil_r].
      unfold Str.eqb. destruct (String.eqb_spec e r) as [->|_]; [congruence|].
      now rewrite app_nil_r. }
    assert (Hmem : forall r, (exists c', c' ∈ l ++ [c] /\ resolver (item c') = Some r)
                   <-> (exists c', c' ∈ l /\ resolver (item c') = Some r)
                       \/ resolver (item c) = Some r).
    { intros r. split.
      - intros (c' & Hc' & Hr). apply elem_of_app in Hc' as [Hc'|Hc'].
        + left. eauto.
        + apply list_elem_of_singleton in Hc'. subst. now right.
      - intros [(c' & Hc' & Hr)|Hr].
        + exists c'. split; [apply elem_of_app; now left | exact Hr].
        + exists c. split; [apply elem_of_app; right; apply list_elem_of_here | exact Hr]. }
    destruct (resolver (item c)) as [e|] eqn:He.
    2:{ split; [|split; [exact IHnd|]].
        - apply map_ext_in. intros r Hr. f_equal. symmetry. apply Hstale.
          + now apply list_elem_of_In.
          + discriminate.
        - intros r. rewrite IHin, Hmem. intuition congruence. }
    change (Str.eqb e "") with (String.eqb e "").
    destruct (String.eqb_spec e "") as [->|Hne].
    { split; [|split; [exact IHnd|]].
      - apply map_ext_in. intros r Hr. f_equal. symmetry.
        apply list_elem_of_In in Hr. apply Hstale; [exact Hr|].
        apply IHin in Hr as [Hr _]. congruence.
      - intros r. rewrite IHin, Hmem. intuition congruence. }
    case_bool_decide as Hseen.
    + split; [|split; [exact IHnd|]].
      * rewrite (group_add_present _ _ _ _ IHnd Hseen).
        apply map_ext_in. intros r Hr. f_equal. rewrite filter_snoc.
        replace (to r c) with (Str.eqb e r)
          by (unfold resolves_to; now rewrite He).
        unfold Str.eqb. rewrite String.eqb_sym.
        destruct (String.eqb e r); [reflexivity|]. now rewrite app_nil_r.
      * intros r. rewrite IHin, Hmem. split; [intuition|].
        intros (Hr & [H|H]); [now split|].
        injection H as <-. now apply IHin.
    + split; [|split].
      * rewrite (group_add_absent _ _ _ _ Hseen), map_app. cbn. f_equal.
        -- apply map_ext_in. intros r Hr. f_equal. symmetry.
           apply list_elem_of_In in Hr. apply Hstale; [exact Hr|].
           intros [= ->]. contradiction.
        -- rewrite filter_snoc.
           replace (to e c) with true
             by (unfold resolves_to, Str.eqb; now rewrite He, String.eqb_refl).
           rewrite filter_none; [reflexivity|].
           intros c' Hc'. unfold resolves_to.
           destruct (resolver (item c')) as [e'|] eqn:He'; [|reflexivity].
           unfold Str.eqb. destruct (String.eqb_spec e' e) as [->|_]; [|reflexivity].
           exfalso. apply Hseen, IHin. split; [exact Hne|]. eauto.
      * apply NoDup_app. split; [exact IHnd|]. split.
        -- intros r Hr Hr'. apply list_elem_of_singleton in Hr'. subst. contradiction.
        -- apply NoDup_singleton.
      * intros r. rewrite elem_of_app, list_elem_of_singleton, IHin, Hmem.
        split.
        -- intros [(Hr & H)|Hr].
           ++ split; [exact Hr | now left].
           ++ subst r. split; [exact Hne | now right].
        -- intros (Hr & [H|H]); [left; now split | right; congruence].
Qed.

End Grouping.

(** ** Dispatch *)

Section Dispatch.

Variable json_loads : string -> result pyobj.
Variable resolver : VaultItem -> option string.

Abbreviation dispatch := (_dispatch_notifications json_loads resolver).

Lemma send_each summary (groups : list (string * list RotationCandidate)) w :
  fold_left (fun w g => send_rotation_notice w (fst g) (snd g) summary) groups w
  = mk_world (fs w)
      (outbox w ++ map (fun g => mk_notice (fst g) (snd g) summary) groups).
Proof.
  revert w. induction groups as [|g groups IH]; intros w; cbn.
  - rewrite app_nil_r. now destruct w.
  - rewrite IH. cbn. now rewrite <- app_assoc.
Qed.

Lemma dispatch_per_recipient environ policy w candidates :
  digest_mode environ = false ->
  dispatch environ policy w candidates
  = (Ok tt,
     mk_world (fs w)
       (outbox w ++ map (group_notice resolver policy candidates)
                        (recipients resolver candidates))).
Proof.
  intros Hmode. unfold _dispatch_notifications. rewrite Hmode.
  destruct candidates as [|c rest].
  - cbn. rewrite app_nil_r. now destruct w.
  - rewrite send_each.
    destruct (grouping_spec resolver (c :: rest)) as [-> _].
    rewrite map_map. reflexivity.
Qed.



(** C4, as it holds.  The mode is chosen by the environment variable
    [ROTATION_SNS_DIGEST] (default ["1"]): dispatch runs in digest mode
    exactly when its lower-cased value is one of 1, true, yes, on.  The
    policy's [send_digest] is not consulted: changing it changes nothing. *)
Theorem dispatch_mode_from_environment
    (environ : gmap string string) (policy : RotationPolicy) (w : world)
    (candidates : list RotationCandidate) :
  (digest_mode environ = true
   <-> Str.lower (getenv environ "ROTATION_SNS_DIGEST" "1") ∈ ["1"; "true"; "yes"; "on"])
  /\ (forall b, dispatch environ (with_send_digest b policy) w candidates
                = dispatch environ policy w candidates)
  /\ (digest_mode environ = true -> candidates <> [] ->
      dispatch environ policy w candidates
      = let r := _digest_has_changed json_loads environ (fs w) candidates in
        (_ ← fst r; Ok tt,
         mk_world (snd r)
           (outbox w ++ (match fst r with
                         | Ok true => [digest_notice policy candidates]
                         | _ => []
                         end))))
  /\ (digest_mode environ = false ->
      dispatch environ policy w candidates
      = (Ok tt,
         mk_world (fs w)
           (outbox w ++ map (group_notice resolver policy candidates)
                            (recipients resolver candidates)))).
Proof.
  split; [|split; [|split]].
  - unfold digest_mode. rewrite existsb_exists. split.
    + intros (x & Hx & Heq). apply String.eqb_eq in Heq. subst x.
      now apply list_elem_of_In.
    + intros Hin. eexists. split; [apply list_elem_of_In, Hin|].
      apply String.eqb_refl.
  - intros b. reflexivity.
  - apply dispatch_digest_mode.
  - apply dispatch_per_recipient.
Qed.

End Dispatch.

Example cycle_with_two_due_items :
  Scenario.cycle Scenario.per_recipient [Scenario.raw_a; Scenario.raw_b]
                 Scenario.day_85 Scenario.fresh
  = (Ok [Scenario.due_a; Scenario.due_b],
     mk_world (fs Scenario.fresh)
       [mk_notice "u1@example.org" [Scenario.due_a] "frequency 90d, grace 5d";
        mk_notice "u2@example.org" [Scenario.due_b] "frequency 90d, grace 5d"]).
Proof. vm_compute. reflexivity. Qed.

Example per_recipient_two_owners :
  outbox (snd (_dispatch_notifications Reference.json_loads Reference.resolver
                 Scenario.per_recipient Scenario.policy Scenario.fresh
                 [Scenario.due_a; Scenario.due_orphan; Scenario.due_b]))
  = [mk_notice "u1@example.org" [Scenario.due_a] "frequency 90d, grace 5d";
     mk_notice "u2@example.org" [Scenario.due_b] "frequency 90d, grace 5d"].
Proof. vm_compute. reflexivity. Qed.


(** A policy with [send_digest] off is dispatched as one digest, and a
    policy with [send_digest] on is dispatched per recipient: the field
    decides nothing. *)
Lemma send_digest_is_not_consulted :
  (send_digest Scenario.policy_off = false
   /\ outbox (snd (_dispatch_notifications Reference.json_loads Reference.resolver
                     ∅ Scenario.policy_off Scenario.fresh
                     [Scenario.due_a; Scenario.due_b]))
      = [mk_notice "all" [Scenario.due_a; Scenario.due_b] "frequency 90d, grace 5d"])
  /\ (send_digest Scenario.policy = true
      /\ outbox (snd (_dispatch_notifications Reference.json_loads Reference.resolver
                        Scenario.per_recipient Scenario.policy Scenario.fresh
                        [Scenario.due_a; Scenario.due_b]))
         = [mk_notice "u1@example.org" [Scenario.due_a] "frequency 90d, grace 5d";
            mk_notice "u2@example.org" [Scenario.due_b] "frequency 90d, grace 5d"]).
Proof. repeat split; vm_compute; reflexivity. Qed.

Lemma dispatch_mode_from_environment_witness :
  _dispatch_notifications Reference.json_loads Reference.resolver
    Scenario.per_recipient (with_send_digest true Scenario.policy_off)
    Scenario.fresh [Scenario.due_a; Scenario.due_b]
  = _dispatch_notifications Reference.json_loads Reference.resolver
      Scenario.per_recipient Scenario.policy_off
      Scenario.fresh [Scenario.due_a; Scenario.due_b].
Proof.
  exact (proj1 (proj2 (dispatch_mode_from_environment
                         Reference.json_loads Reference.resolver
                         Scenario.per_recipient Scenario.policy_off Scenario.fresh
                         [Scenario.due_a; Scenario.due_b])) true).
Defined.

(** ** Labels *)

Lemma prefix_empty n s : Str.prefix (S n) s = "" <-> s = "".
Proof. destruct s; cbn; split; congruence. Qed.

Lemma short_id_spec s :
  str_or (Str.prefix 8 (str_or s "")) "unknown"
  = if Str.eqb s "" then "unknown" else Str.prefix 8 s.
Proof.
  unfold str_or, Str.eqb. destruct (String.eqb_spec s "") as [->|Hne]; [reflexivity|].
  destruct (String.eqb_spec (Str.prefix 8 s) "") as [He|_]; [|reflexivity].
  apply prefix_empty in He. contradiction.
Qed.

(** C6, as it holds.  The label is the generic ["(Item) ID:"] followed by
    the first eight characters of the id (the whole id when it is
    shorter, ["unknown"] when it is empty) exactly when the name contains
    both a full stop and a vertical bar or is longer than 60 characters;
    otherwise it is the name as it is, except that an empty name is shown
    as ["(Unnamed)"]. *)
Theorem label_for_spec (candidate : RotationCandidate) :
  let nm := name (item candidate) in
  let ident := id (item candidate) in
  _label_for candidate
  = if (Str.contains "."%char nm && Str.contains "|"%char nm) || (60 <? Str.len nm)
    then "(Item) ID:" +:+ (if Str.eqb ident "" then "unknown" else Str.prefix 8 ident)
    else if Str.eqb nm "" then "(Unnamed)" else nm.
Proof.
  cbv zeta. unfold _label_for. rewrite short_id_spec.
  destruct (Str.eqb (name (item candidate)) "") eqn:He.
  - apply String.eqb_eq in He. rewrite He. reflexivity.
  - unfold str_or. rewrite He. unfold _looks_encrypted. rewrite He.
    rewrite (andb_comm (Str.contains "|"%char _)).
    destruct (_ || _); reflexivity.
Qed.

Example label_of_cipher_shaped_name :
  _label_for Scenario.cipher_named = "(Item) ID:a1b2c3d4".
Proof. reflexivity. Qed.

Example label_of_plain_name : _label_for Scenario.due_a = "Mail".
Proof. reflexivity. Qed.

(** An empty name has neither mark nor length, and is not shown as it is. *)
Lemma label_of_empty_name :
  (Str.contains "."%char (name (item Scenario.nameless))
   && Str.contains "|"%char (name (item Scenario.nameless))
   || (60 <? Str.len (name (item Scenario.nameless)))) = false
  /\ _label_for Scenario.nameless = "(Unnamed)"
  /\ _label_for Scenario.nameless <> name (item Scenario.nameless).
Proof. repeat split. discriminate. Qed.

(** ** Normalisation *)

Section Normalisation.

Variable fromisoformat : string -> result datetime.
Variable strptime : string -> string -> result datetime.

(** The library parsers reject a string with [ValueError] and nothing
    else. *)
Hypothesis fromisoformat_raises :
  forall value e, fromisoformat value = Raise e -> e = ValueError.
Hypothesis strptime_raises :
  forall value fmt e, strptime value fmt = Raise e -> e = ValueError.

Abbreviation parse := (_parse_timestamp fromisoformat strptime).

Lemma try_formats_total value fmts :
  exists o, try_formats strptime value fmts = Ok o.
Proof.
  induction fmts as [|fmt rest [o IH]]; [now exists None|]. cbn.
  destruct (strptime value fmt) as [dt|e] eqn:Hs; cbn.
  - eauto.
  - rewrite (strptime_raises _ _ _ Hs). eauto.
Qed.

Lemma parse_timestamp_total raw : exists o, parse raw = Ok o.
Proof.
  unfold _parse_timestamp. destruct raw as [raw|]; [|now exists None].
  destruct (Str.eqb raw ""); [now exists None|].
  destruct (Str.eqb (Str.strip raw) ""); [now exists None|].
  set (value := if Str.endswith _ _ then _ else _).
  destruct (fromisoformat value) as [dt|e] eqn:Hf; cbn.
  - eauto.
  - rewrite (fromisoformat_raises _ _ Hf). exact (try_formats_total value formats).
Qed.

(** C7.  Normalisation is total.  No timestamp string makes
    [_parse_timestamp] raise, and [from_api] builds an item from every raw
    record: a [revisionDate] that is missing or does not parse is replaced
    by the clock reading, rotation fields that do not parse leave
    [last_rotated_at] absent, and the effective rotation source is then
    the revision date. *)
Theorem from_api_total (utcnow : datetime) (p : payload) :
  (forall raw, exists o, parse raw = Ok o)
  /\ exists it,
       from_api fromisoformat strptime utcnow p = Ok it
       /\ (p !! "revisionDate" = None -> revision_date it = utcnow)
       /\ (parse (Some (Obj.str (default (PyStr "") (p !! "revisionDate")))) = Ok None ->
           revision_date it = utcnow)
       /\ (parse (Some (Obj.str (payload_get p "passwordRotation"))) = Ok None ->
           parse (Some (Obj.str (payload_get p "lastPasswordRotation"))) = Ok None ->
           last_rotated_at it = None
           /\ effective_rotation_source it = revision_date it).
Proof.
  split; [exact parse_timestamp_total|].
  unfold from_api.
  destruct (parse_timestamp_total
              (Some (Obj.str (default (PyStr "") (p !! "revisionDate")))))
    as [rev Hrev].
  destruct (parse_timestamp_total (Some (Obj.str (payload_get p "passwordRotation"))))
    as [rot Hrot].
  destruct (parse_timestamp_total
              (Some (Obj.str (payload_get p "lastPasswordRotation"))))
    as [rot' Hrot'].
  rewrite Hrev, Hrot. cbn [mbind result_bind].
  destruct rot as [t|].
  - eexists. split; [reflexivity|]. cbn. split; [|split].
    + intros Hmissing. rewrite Hmissing in Hrev. cbn in Hrev.
      injection Hrev as <-. reflexivity.
    + intros [= ->]. reflexivity.
    + discriminate.
  - rewrite Hrot'. cbn [mbind result_bind].
    eexists. split; [reflexivity|]. cbn. split; [|split].
    + intros Hmissing. rewrite Hmissing in Hrev. cbn in Hrev.
      injection Hrev as <-. reflexivity.
    + intros [= ->]. reflexivity.
    + intros _ [= ->]. split; reflexivity.
Qed.

End Normalisation.

Lemma reference_raises {A} (o : option A) e :
  Reference.or_ValueError o = Raise e -> e = ValueError.
Proof. destruct o; cbn; congruence. Qed.

Example normalises_broken_record :
  from_api Reference.fromisoformat Reference.strptime Scenario.day_85
           Scenario.raw_broken
  = Ok (mk_VaultItem "a1b2c3d4-0007" "Unnamed entry" None [] Scenario.day_85 None).
Proof. vm_compute. reflexivity. Qed.

Lemma from_api_total_witness :
  exists it,
    from_api Reference.fromisoformat Reference.strptime Scenario.day_85
             Scenario.raw_bare = Ok it
    /\ revision_date it = Scenario.day_85.
Proof.
  destruct (from_api_total Reference.fromisoformat Reference.strptime
              (fun value e H => reference_raises _ e H)
              (fun value fmt e H => reference_raises _ e H)
              Scenario.day_85 Scenario.raw_bare) as (_ & it & Hit & Hmissing & _).
  exists it. split; [exact Hit|]. apply Hmissing. reflexivity.
Defined.

(** * The rest of the package: properties *)

(** ** Strings as character lists *)

Lemma chars_of_chars l : Str.chars (Str.of_chars l) = l.
Proof. apply list_ascii_of_string_of_list_ascii. Qed.

Lemma of_chars_chars s : Str.of_chars (Str.chars s) = s.
Proof. apply string_of_list_ascii_of_string. Qed.

Lemma chars_app a b : Str.chars (a +:+ b) = Str.chars a ++ Str.chars b.
Proof.
  unfold Str.chars. induction a as [|c a IH]; [reflexivity|].
  change (String c a +:+ b) with (String c (a +:+ b)). cbn. f_equal. exact IH.
Qed.

Lemma of_chars_app l k : Str.of_chars (l ++ k) = Str.of_chars l +:+ Str.of_chars k.
Proof.
  unfold Str.of_chars. induction l as [|c l IH]; [reflexivity|].
  cbn. rewrite IH. reflexivity.
Qed.

Lemma length_chars s : length (Str.chars s) = String.length s.
Proof.
  unfold Str.chars. induction s as [|c s IH]; cbn; [reflexivity | f_equal; exact IH].
Qed.

Lemma len_chars s : Str.len s = Z.of_nat (length (Str.chars s)).
Proof. unfold Str.len. now rewrite length_chars. Qed.

Lemma chars_inj a b : Str.chars a = Str.chars b -> a = b.
Proof. intros H. rewrite <- (of_chars_chars a), <- (of_chars_chars b). now rewrite H. Qed.

Lemma chars_empty s : Str.chars s = [] <-> s = "".
Proof. destruct s; cbn; split; congruence. Qed.

Lemma eqb_empty s : Str.eqb s "" = true <-> s = "".
Proof. unfold Str.eqb. apply String.eqb_eq. Qed.

(** ** Delivery *)

Lemma retry_loop_cons publish req to a rest last t :
  retry_loop publish req to (a :: rest) last t
  = if asks_retry (publish a req) && (a <? 4)
    then retry_loop publish req to rest (Some (a, publish a req))
           (mk_transcript (published t ++ [req]) (sleeps t ++ [2 ^ a]))
    else (ending to a (publish a req),
          mk_transcript (published t ++ [req]) (sleeps t)).
Proof.
  cbn [retry_loop]. cbv zeta.
  destruct (publish a req) as [mid|response| |]; cbn [asks_retry ending published sleeps];
    try reflexivity.
  destruct (retryable response) as [listed|e]; reflexivity.
Qed.

Lemma retry_cases (publish : Z -> request -> attempt_outcome) (req : request)
    (to : string) :
  exists k,
    0 <= k <= 4
    /\ (forall j, 0 <= j < k -> asks_retry (publish j req) = true)
    /\ (k = 4 \/ asks_retry (publish k req) = false)
    /\ retry_loop publish req to (seqZ 0 5) None (mk_transcript [] [])
       = (ending to k (publish k req),
          mk_transcript (replicate (Z.to_nat (k + 1)) req)
                        (map (fun j => 2 ^ j) (seqZ 0 k))).
Proof.
  change (seqZ 0 5) with [0; 1; 2; 3; 4].
  rewrite retry_loop_cons.
  destruct (asks_retry (publish 0 req)) eqn:A0; cbn [andb];
    [|exists 0; repeat split; try lia; intros; lia || now right].
  change (0 <? 4) with true. cbv iota.
  rewrite retry_loop_cons.
  destruct (asks_retry (publish 1 req)) eqn:A1; cbn [andb];
    [|exists 1; repeat split; try lia; [|now right];
      intros j Hj; assert (j = 0) as -> by lia; exact A0].
  change (1 <? 4) with true. cbv iota.
  rewrite retry_loop_cons.
  destruct (asks_retry (publish 2 req)) eqn:A2; cbn [andb];
    [|exists 2; repeat split; try lia; [|now right];
      intros j Hj; assert (j = 0 \/ j = 1) as [-> | ->] by lia; assumption].
  change (2 <? 4) with true. cbv iota.
  rewrite retry_loop_cons.
  destruct (asks_retry (publish 3 req)) eqn:A3; cbn [andb];
    [|exists 3; repeat split; try lia; [|now right];
      intros j Hj; assert (j = 0 \/ j = 1 \/ j = 2) as [-> | [-> | ->]] by lia;
      assumption].
  change (3 <? 4) with true. cbv iota.
  rewrite retry_loop_cons, andb_false_r.
  exists 4. repeat split; try lia.
  intros j Hj.
  assert (j = 0 \/ j = 1 \/ j = 2 \/ j = 3) as [-> | [-> | [-> | ->]]] by lia;
    assumption.
Qed.

Section Delivery.

Variable py_int : string -> result Z.
Variable due_text : datetime -> result string.
Variable sign_off : string.

Abbreviation body_of := (_build_plaintext_body py_int due_text sign_off).
Abbreviation notify := (AWSSNSNotifier.send_rotation_notice py_int due_text sign_off).

(** X1.  When the message cannot be built, [send_rotation_notice] ends
    with the exception of the construction and publishes nothing.
    Otherwise it publishes the same request until the first attempt that
    completes, fails in a way that asks for no retry, or is the fifth.
    That attempt decides how the call ends: with its response, with its
    exception, or with the exception the [except] clause raised on its
    error code.  Before attempt [j] it has slept [2^(j-1)] seconds. *)
Theorem notice_stops_at_first_final
    (environ : gmap string string) (config : NotificationConfig)
    (publish : Z -> request -> attempt_outcome) (to : string)
    (its : list RotationCandidate) (summary : string) :
  match body_of environ to its summary with
  | Raise e =>
      notify environ config publish to its summary
      = (NotBuilt e, mk_transcript [] [])
  | Ok body_text =>
      let req := mk_request (topic_arn config) (subject config) body_text to in
      exists k,
        0 <= k <= 4
        /\ (forall j, 0 <= j < k -> asks_retry (publish j req) = true)
        /\ (k = 4 \/ asks_retry (publish k req) = false)
        /\ notify environ config publish to its summary
           = (ending to k (publish k req),
              mk_transcript (replicate (Z.to_nat (k + 1)) req)
                            (map (fun j => 2 ^ j) (seqZ 0 k)))
  end.
Proof.
  unfold AWSSNSNotifier.send_rotation_notice.
  destruct (body_of environ to its summary) as [body_text|e]; [|reflexivity].
  apply retry_cases.
Qed.

(** X2.  One notice costs at most five [publish] calls and at most fifteen
    seconds of sleep, and at least one [publish] call unless the message
    could not be built. *)
Theorem notice_is_bounded
    (environ : gmap string string) (config : NotificationConfig)
    (publish : Z -> request -> attempt_outcome) (to : string)
    (its : list RotationCandidate) (summary : string) :
  let t := snd (notify environ config publish to its summary) in
  (length (published t) <= 5)%nat
  /\ 0 <= fold_right Z.add 0 (sleeps t) <= 15
  /\ (published t = [] <-> exists e, body_of environ to its summary = Raise e).
Proof.
  cbv zeta. unfold AWSSNSNotifier.send_rotation_notice.
  destruct (body_of environ to its summary) as [body_text|e].
  - destruct (retry_cases publish
                (mk_request (topic_arn config) (subject config) body_text to) to)
      as (k & Hk & _ & _ & ->).
    cbn [snd published sleeps].
    assert (k = 0 \/ k = 1 \/ k = 2 \/ k = 3 \/ k = 4)
      as [-> | [-> | [-> | [-> | ->]]]] by lia;
      (split; [vm_compute; lia|]); (split; [vm_compute; split; discriminate|]);
      (split; [discriminate | intros [e He]; discriminate]).
  - cbn. split; [lia|]. split; [lia|]. split; [eauto | reflexivity].
Qed.

(** X3.  The notice never ends with anything its own steps did not
    produce: a result carries the [MessageId] of an attempt that completed
    (empty when the response has none); an exception is that of an attempt
    that failed, that of the [except] clause on the error code of a failed
    attempt, or that of the message construction.  The placeholder result
    after the loop is never returned. *)
Theorem notice_reports_an_attempt
    (environ : gmap string string) (config : NotificationConfig)
    (publish : Z -> request -> attempt_outcome) (to : string)
    (its : list RotationCandidate) (summary : string) :
  let req body_text := mk_request (topic_arn config) (subject config) body_text to in
  match fst (notify environ config publish to its summary) with
  | Delivered r =>
      exists body_text k mid,
        body_of environ to its summary = Ok body_text
        /\ 0 <= k <= 4 /\ publish k (req body_text) = Published mid
        /\ r = mk_NotificationResult to (default "" mid)
  | Propagated k failure =>
      exists body_text,
        body_of environ to its summary = Ok body_text
        /\ 0 <= k <= 4 /\ publish k (req body_text) = failure
        /\ forall mid, failure <> Published mid
  | HandlerRaised k e =>
      exists body_text response,
        body_of environ to its summary = Ok body_text
        /\ 0 <= k <= 4 /\ publish k (req body_text) = ClientFailure response
        /\ retryable response = Raise e
  | NotBuilt e => body_of environ to its summary = Raise e
  end.
Proof.
  cbv zeta. unfold AWSSNSNotifier.send_rotation_notice.
  destruct (body_of environ to its summary) as [body_text|e]; [|reflexivity].
  destruct (retry_cases publish
              (mk_request (topic_arn config) (subject config) body_text to) to)
    as (k & Hk & _ & _ & ->).
  cbn [fst].
  destruct (publish k _) as [mid|response| |] eqn:E; cbn [ending].
  - exists body_text, k, mid. auto.
  - destruct (retryable response) as [listed|e] eqn:R.
    + exists body_text. repeat split; try lia; [exact E | discriminate].
    + exists body_text, response. repeat split; try lia; [exact E | exact R].
  - exists body_text. repeat split; try lia; [exact E | discriminate].
  - exists body_text. repeat split; try lia; [exact E | discriminate].
Qed.

End Delivery.

(** An error whose [response] is no dictionary makes the [except] clause
    itself raise, and a message that cannot be built is never published. *)
Example handler_raises_on_odd_response :
  AWSSNSNotifier.send_rotation_notice Instances.decimal Instances.utc_minute
    Instances.sign_off ∅ (mk_NotificationConfig "eu-west-1" "arn" None None None)
    (fun _ _ => ClientFailure (Some (PyStr "throttled"))) "all" [Scenario.due_a] "90d"
  = (HandlerRaised 0 AttributeError,
     mk_transcript
       [mk_request "arn" "Vaultwarden password rotation reminder"
          (Str.join (String (Str.chr 10) "")
             (header
              ++ ["- Mail (due 2024-03-31 00:00 UTC)"; "  ID: a1b2c3d4-0001"]
              ++ footer Instances.sign_off "90d"))
          "all"]
       []).
Proof. vm_compute. reflexivity. Qed.

Example unbuilt_message_is_not_published :
  AWSSNSNotifier.send_rotation_notice Instances.decimal Instances.utc_minute
    Instances.sign_off {[ "ROTATION_SNS_MAX_LINES" := "ten" ]}
    (mk_NotificationConfig "eu-west-1" "arn" None None None)
    (fun _ _ => Published None) "all" [Scenario.due_a] "90d"
  = (NotBuilt ValueError, mk_transcript [] []).
Proof. vm_compute. reflexivity. Qed.

(** ** The subject *)

Lemma prefix_length n s : (String.length (Str.prefix n s) <= n)%nat.
Proof.
  unfold Str.prefix. rewrite <- length_chars, chars_of_chars, length_take. lia.
Qed.

(** X4.  The subject of a notice has at most 100 characters, all of them
    ASCII, whatever the configured prefix. *)
Theorem subject_fits_sns (config : NotificationConfig) :
  (String.length (subject config) <= 100)%nat
  /\ Forall (fun c => Str.code c < 128) (Str.chars (subject config)).
Proof.
  split; [apply prefix_length|].
  unfold subject, Str.prefix. rewrite chars_of_chars, chars_app.
  apply Forall_take, Forall_app. split.
  - unfold Text.ascii_only. rewrite chars_of_chars.
    apply List.Forall_forall. intros c Hc. apply List.filter_In in Hc as [_ Hc].
    now apply Z.ltb_lt.
  - apply Forall_forall. intros c Hc. vm_compute in Hc.
    repeat (apply elem_of_cons in Hc as [-> | Hc]; [vm_compute; reflexivity|]).
    inversion Hc.
Qed.

(** ** Links and labels *)

Lemma skip_rev_snoc p l c :
  p c = true -> Text.skip p (rev (l ++ [c])) = Text.skip p (rev l).
Proof. intros Hp. rewrite rev_app_distr. cbn. now rewrite Hp. Qed.

(** X5.  A trailing slash of the base URL makes no difference to an item
    link. *)
Theorem item_link_ignores_trailing_slash (base_url item_id : string) :
  _item_link (base_url +:+ "/") item_id = _item_link base_url item_id.
Proof.
  unfold _item_link, Text.rstrip_char. rewrite chars_app.
  change (Str.chars "/") with ["/"%char].
  rewrite skip_rev_snoc by reflexivity. reflexivity.
Qed.

Lemma length_append a b : String.length (a +:+ b) = (String.length a + String.length b)%nat.
Proof. rewrite <- !length_chars, chars_app. apply length_app. Qed.

(** X6.  A label is never empty and never longer than 60 characters. *)
Theorem label_is_short (candidate : RotationCandidate) :
  _label_for candidate <> "" /\ (1 <= String.length (_label_for candidate) <= 60)%nat.
Proof.
  assert (Hlen : forall s, (1 <= String.length s)%nat -> s <> "").
  { intros s H ->. cbn in H. lia. }
  cut (1 <= String.length (_label_for candidate) <= 60)%nat.
  { intros H. split; [apply Hlen; lia | exact H]. }
  unfold _label_for.
  set (nm := str_or (name (item candidate)) "(Unnamed)").
  assert (Hnm : (1 <= String.length nm)%nat).
  { unfold nm, str_or. destruct (Str.eqb (name (item candidate)) "") eqn:E; [cbn; lia|].
    destruct (name (item candidate)); [discriminate | cbn; lia]. }
  destruct (_looks_encrypted (Some nm)) eqn:L.
  - change (_type_label candidate) with "Item".
    rewrite !length_append. change (String.length "(") with 1%nat.
    change (String.length "Item") with 4%nat. change (String.length ") ID:") with 5%nat.
    set (short := str_or (Str.prefix 8 _) "unknown").
    assert (String.length short <= 8)%nat.
    { unfold short, str_or.
      destruct (Str.eqb (Str.prefix 8 _) ""); [cbn; lia | apply prefix_length]. }
    lia.
  - split; [exact Hnm|]. unfold _looks_encrypted in L.
    destruct (Str.eqb nm "") eqn:E.
    { apply eqb_empty in E. rewrite E in Hnm. cbn in Hnm. lia. }
    apply orb_false_elim in L as [_ L]. apply Z.ltb_ge in L. unfold Str.len in L. lia.
Qed.

(** ** The message body *)

Section BodyFacts.

Variable py_int : string -> result Z.
Variable due_text : datetime -> result string.
Variable sign_off : string.

Lemma listing_closed max_lines base_url total rest :
  forall i rendered,
    Forall2 (fun c lines => entry due_text base_url c = Ok lines)
            (take (Z.to_nat (max_lines - i)) rest) rendered ->
    listing due_text max_lines base_url total i rest
    = Ok (concat rendered
          ++ (if (Z.to_nat (max_lines - i) <? length rest)%nat
              then [overflow_line max_lines total] else [])).
Proof.
  induction rest as [|c rest IH]; intros i rendered Hall.
  - rewrite take_nil in Hall. inversion Hall. reflexivity.
  - cbn [listing]. destruct (max_lines <=? i) eqn:Hcap.
    + apply Z.leb_le in Hcap. replace (Z.to_nat (max_lines - i)) with 0%nat in * by lia.
      inversion Hall. reflexivity.
    + apply Z.leb_gt in Hcap.
      replace (Z.to_nat (max_lines - i)) with (S (Z.to_nat (max_lines - (i + 1)))) in *
        by lia.
      cbn [take] in Hall. inversion Hall as [|? lines ? rendered' Hc Hrest]; subst.
      rewrite Hc. cbn [mbind result_bind]. rewrite (IH _ _ Hrest). cbn [mbind result_bind].
      cbn [concat length]. rewrite <- app_assoc. reflexivity.
Qed.

(** X7.  The message lists the first [ROTATION_SNS_MAX_LINES] candidates,
    from the first on, and replaces the others by one line that counts
    them; the candidates beyond the cap are not rendered at all.  With a
    cap at or above the number of candidates every candidate is listed and
    there is no such line. *)
Theorem body_lists_up_to_the_cap
    (environ : gmap string string) (its : list RotationCandidate)
    (summary : string) (max_lines : Z) (rendered : list (list string)) :
  py_int (getenv environ "ROTATION_SNS_MAX_LINES" "100") = Ok max_lines ->
  Forall2 (fun c lines =>
             entry due_text (Str.strip (getenv environ "VAULTWARDEN_URL" "")) c
             = Ok lines)
          (take (Z.to_nat max_lines) its) rendered ->
  body_lines py_int due_text sign_off environ its summary
  = Ok (header ++ concat rendered
        ++ (if (Z.to_nat max_lines <? length its)%nat
            then [overflow_line max_lines (Z.of_nat (length its))] else [])
        ++ footer sign_off summary).
Proof.
  intros Hint Hall. unfold body_lines. rewrite Hint. cbn [mbind result_bind].
  rewrite (listing_closed _ _ _ _ 0 rendered) by (now rewrite Z.sub_0_r).
  cbn [mbind result_bind]. rewrite Z.sub_0_r, <- app_assoc. reflexivity.
Qed.

End BodyFacts.

Example body_with_cap_one :
  body_lines Instances.decimal Instances.utc_minute Instances.sign_off
             Instances.complete [Scenario.due_a; Scenario.due_b]
             "frequency 90d, grace 5d"
  = Ok ["Hello,"; "";
        "The following Vaultwarden entries are due for password rotation:"; "";
        "- Mail (due 2024-03-31 00:00 UTC)"; "  ID: a1b2c3d4-0001";
        "  Link: https://vault.example.org/#/vault?itemId=a1b2c3d4-0001";
        "... and 1 more";
        ""; "Policy: frequency 90d, grace 5d"; "";
        "Please rotate these passwords at your earliest convenience.";
        "If you have already updated them, you can ignore this reminder.";
        ""; "-- Vaultwarden"].
Proof. vm_compute. reflexivity. Qed.

Lemma body_lists_up_to_the_cap_witness :
  body_lines Instances.decimal Instances.utc_minute Instances.sign_off
             Instances.complete [Scenario.due_a; Scenario.due_b]
             "frequency 90d, grace 5d"
  = Ok (header
        ++ concat [["- Mail (due 2024-03-31 00:00 UTC)"; "  ID: a1b2c3d4-0001";
                    "  Link: https://vault.example.org/#/vault?itemId=a1b2c3d4-0001"]]
        ++ (if (Z.to_nat 1 <? length [Scenario.due_a; Scenario.due_b])%nat
            then [overflow_line 1 (Z.of_nat (length [Scenario.due_a; Scenario.due_b]))]
            else [])
        ++ footer Instances.sign_off "frequency 90d, grace 5d").
Proof.
  apply (body_lists_up_to_the_cap Instances.decimal Instances.utc_minute
           Instances.sign_off Instances.complete
           [Scenario.due_a; Scenario.due_b] "frequency 90d, grace 5d" 1).
  - vm_compute. reflexivity.
  - repeat constructor.
Defined.

(** ** [str.strip] *)

Lemma lstrip_chars s : Str.chars (Str.lstrip s) = Text.skip Str.is_space (Str.chars s).
Proof.
  unfold Str.chars. induction s as [|c s IH]; [reflexivity|].
  cbn. destruct (Str.is_space c); [exact IH | reflexivity].
Qed.

Lemma strip_chars s :
  Str.chars (Str.strip s)
  = rev (Text.skip Str.is_space (rev (Text.skip Str.is_space (Str.chars s)))).
Proof.
  unfold Str.strip. now rewrite chars_of_chars, lstrip_chars, chars_of_chars, lstrip_chars.
Qed.

Lemma skip_clean p l : clean p (Text.skip p l).
Proof.
  induction l as [|c l IH]; [exact I|]. cbn. destruct (p c) eqn:E; [exact IH | exact E].
Qed.

Lemma skip_of_clean p l : clean p l -> Text.skip p l = l.
Proof. destruct l as [|c l]; [reflexivity|]. cbn. now intros ->. Qed.

Lemma skip_suffix p l : exists k, l = k ++ Text.skip p l.
Proof.
  induction l as [|c l [k IH]]; [now exists []|]. cbn. destruct (p c).
  - exists (c :: k). cbn. now f_equal.
  - now exists [].
Qed.

(** Dropping characters at the end keeps a clean start clean. *)
Lemma rskip_clean p l : clean p l -> clean p (rev (Text.skip p (rev l))).
Proof.
  intros Hl. destruct (skip_suffix p (rev l)) as [k Hk].
  apply (f_equal (@rev ascii)) in Hk. rewrite rev_involutive, rev_app_distr in Hk.
  destruct (rev (Text.skip p (rev l))) as [|c r]; [exact I|].
  rewrite Hk in Hl. exact Hl.
Qed.

Lemma strip_idempotent s : Str.strip (Str.strip s) = Str.strip s.
Proof.
  apply chars_inj. rewrite (strip_chars (Str.strip s)), strip_chars.
  set (m := Text.skip Str.is_space (Str.chars s)).
  rewrite (skip_of_clean Str.is_space (rev (Text.skip Str.is_space (rev m))))
    by (apply rskip_clean, skip_clean).
  rewrite rev_involutive.
  rewrite (skip_of_clean Str.is_space (Text.skip Str.is_space (rev m)))
    by apply skip_clean.
  reflexivity.
Qed.

(** ** [service.py] *)

(** What [_split_env] returns when it returns a list. *)
Lemma split_env_values (environ : gmap string string) (name : string)
    (values : list string) :
  _split_env environ name = Some values ->
  values <> [] /\ Forall tidy values /\ nonempty (Some values) = true.
Proof.
  unfold _split_env.
  set (kept := List.filter _ _).
  destruct (map Str.strip kept) as [|v vs] eqn:E; [discriminate|].
  intros [= <-]. split; [discriminate|]. split; [|reflexivity].
  rewrite <- E. apply Forall_map, Forall_forall. intros v' Hv'.
  apply list_elem_of_In, List.filter_In in Hv' as [_ Hv'].
  split; [|apply strip_idempotent].
  intros Hempty. rewrite Hempty in Hv'. discriminate.
Qed.

(** X8.  An allow-list read from the environment is either absent or a
    non-empty list of non-empty values without surrounding white space:
    blank pieces between commas are dropped, and a variable with nothing
    but blanks and commas gives no list at all. *)
Theorem split_env_is_tidy (environ : gmap string string) (name : string)
    (values : list string) :
  _split_env environ name = Some values ->
  values <> [] /\ Forall tidy values /\ nonempty (Some values) = true.
Proof. apply split_env_values. Qed.

Example split_env_drops_blanks :
  _split_env Instances.complete "ROTATION_USER_IDS" = Some ["u1"; "u2"].
Proof. vm_compute. reflexivity. Qed.

Lemma split_env_is_tidy_witness :
  ["u1"; "u2"] <> [] /\ Forall tidy ["u1"; "u2"] /\ nonempty (Some ["u1"; "u2"]) = true.
Proof.
  apply (split_env_is_tidy Instances.complete "ROTATION_USER_IDS").
  vm_compute. reflexivity.
Defined.

(** X9.  A configuration built from the environment always has
    [send_digest] on (no variable reaches the field), allow-lists that are
    absent or tidy, and a region and topic that are not empty. *)
Theorem configuration_shape (py_int : string -> result Z)
    (environ : gmap string string) (policy : RotationPolicy)
    (config : NotificationConfig) :
  configuration_from_env py_int environ = Ready (policy, config) ->
  send_digest policy = true
  /\ (forall ids, target_collections policy = Some ids -> ids <> [] /\ Forall tidy ids)
  /\ (forall ids, target_users policy = Some ids -> ids <> [] /\ Forall tidy ids)
  /\ region config <> "" /\ topic_arn config <> "".
Proof.
  unfold configuration_from_env.
  destruct (forallb _ required) eqn:Hreq; [|discriminate].
  destruct (py_int _) as [frequency|]; [|discriminate].
  destruct (py_int _) as [grace|]; [|discriminate].
  intros [= <- <-]. cbn.
  split; [reflexivity|].
  split; [intros ids H; apply split_env_values in H; tauto|].
  split; [intros ids H; apply split_env_values in H; tauto|].
  rewrite forallb_forall in Hreq.
  split.
  - intros H. specialize (Hreq "AWS_SNS_REGION"). rewrite H in Hreq.
    discriminate Hreq. cbn. tauto.
  - intros H. specialize (Hreq "ROTATION_SNS_TOPIC_ARN"). rewrite H in Hreq.
    discriminate Hreq. cbn. tauto.
Qed.

Lemma configuration_shape_witness :
  configuration_from_env Instances.decimal Instances.complete
  = Ready (mk_RotationPolicy 90 5 None (Some ["u1"; "u2"]) true,
           mk_NotificationConfig "eu-west-1" "arn:aws:sns:eu-west-1:1:rotation"
                                 None None None)
  /\ send_digest (mk_RotationPolicy 90 5 None (Some ["u1"; "u2"]) true) = true.
Proof.
  assert (H : configuration_from_env Instances.decimal Instances.complete
              = Ready (mk_RotationPolicy 90 5 None (Some ["u1"; "u2"]) true,
                       mk_NotificationConfig "eu-west-1"
                         "arn:aws:sns:eu-west-1:1:rotation" None None None))
    by (vm_compute; reflexivity).
  split; [exact H|].
  exact (proj1 (configuration_shape Instances.decimal Instances.complete _ _ H)).
Defined.

(** ** Dry runs *)

Section DryRun.

Variable fromisoformat : string -> result datetime.
Variable strptime : string -> string -> result datetime.
Variable json_loads : string -> result pyobj.
Variable resolver : VaultItem -> option string.

Abbreviation cycle := (run_once fromisoformat strptime json_loads resolver).

(** X10.  With [ROTATION_DRY_RUN] set to a true value a pass of the
    scheduler loop leaves the world as it is, whatever the vault returns:
    nothing is sent and the state file is not touched. *)
Theorem dry_run_changes_nothing
    (environ : gmap string string) (policy : RotationPolicy)
    (ciphers : result (list payload)) (utcnow : nat -> datetime) (now : datetime)
    (w : world) :
  _bool_env environ "ROTATION_DRY_RUN" false = true ->
  execute_once fromisoformat strptime json_loads resolver environ policy
               ciphers utcnow now w = w.
Proof.
  intros Hdry. unfold execute_once. rewrite Hdry. destruct ciphers as [listed|]; [|reflexivity].
  rewrite run_once_unfold. destruct (cycle_candidates _ _ _ _ _ _); reflexivity.
Qed.

(** X11.  The candidates a cycle returns depend on the policy, the vault
    records and the clock only.  When a cycle returns, a cycle over the
    same records without notifications returns the same candidates from
    any world, whatever the environment, and leaves that world as it is;
    and every other cycle over the same records that returns, returns the
    same candidates, whether or not it sends notifications. *)
Theorem candidates_ignore_dispatch
    (environ environ' : gmap string string) (policy : RotationPolicy)
    (ciphers : list payload) (utcnow : nat -> datetime) (now : datetime)
    (send : bool) (w w1 w' : world) (candidates : list RotationCandidate) :
  cycle environ policy ciphers utcnow now send w = (Ok candidates, w1) ->
  cycle environ' policy ciphers utcnow now false w' = (Ok candidates, w')
  /\ forall send' w1' candidates',
       cycle environ' policy ciphers utcnow now send' w' = (Ok candidates', w1') ->
       candidates' = candidates.
Proof.
  intros Hrun. apply run_once_inv in Hrun as [Hsel _]. split.
  - rewrite run_once_unfold, Hsel. reflexivity.
  - intros send' w1' candidates' Hrun'. apply run_once_inv in Hrun' as [Hsel' _].
    congruence.
Qed.

End DryRun.

Lemma candidates_ignore_dispatch_witness :
  run_once Reference.fromisoformat Reference.strptime Reference.json_loads
           Reference.resolver Scenario.per_recipient Scenario.policy
           [Scenario.raw_a] Scenario.clock Scenario.day_85 false Scenario.after_first
  = (Ok [Scenario.due_a], Scenario.after_first)
  /\ forall send' w1' candidates',
       run_once Reference.fromisoformat Reference.strptime Reference.json_loads
                Reference.resolver Scenario.per_recipient Scenario.policy
                [Scenario.raw_a] Scenario.clock Scenario.day_85 send'
                Scenario.after_first
       = (Ok candidates', w1') ->
       candidates' = [Scenario.due_a].
Proof.
  apply (candidates_ignore_dispatch
           Reference.fromisoformat Reference.strptime Reference.json_loads
           Reference.resolver ∅ Scenario.per_recipient Scenario.policy
           [Scenario.raw_a] Scenario.clock Scenario.day_85 true
           Scenario.fresh Scenario.after_first Scenario.after_first
           [Scenario.due_a]).
  vm_compute. reflexivity.
Defined.

Lemma dry_run_changes_nothing_witness :
  execute_once Reference.fromisoformat Reference.strptime Reference.json_loads
               Reference.resolver Instances.complete Scenario.policy
               (Ok [Scenario.raw_a]) Scenario.clock Scenario.day_85 Scenario.fresh
  = Scenario.fresh.
Proof.
  apply dry_run_changes_nothing. vm_compute. reflexivity.
Defined.

(** ** Timestamps *)

Section Timestamps.

Variable fromisoformat : string -> result datetime.
Variable strptime : string -> string -> result datetime.

Abbreviation parse := (_parse_timestamp fromisoformat strptime).

(** X12.  White space around a timestamp is ignored. *)
Theorem parse_timestamp_ignores_blanks (raw : string) :
  parse (Some raw) = parse (Some (Str.strip raw)).
Proof.
  unfold _parse_timestamp.
  destruct (Str.eqb raw "") eqn:Hraw.
  { apply eqb_empty in Hraw. subst raw. reflexivity. }
  rewrite strip_idempotent.
  destruct (Str.eqb (Str.strip raw) ""); reflexivity.
Qed.

Lemma try_formats_utc value fmts t :
  try_formats strptime value fmts = Ok (Some t) -> tzinfo t = Datetime.utc.
Proof.
  induction fmts as [|fmt rest IH]; [discriminate|]. cbn.
  destruct (strptime value fmt) as [dt|[]]; cbn; try discriminate.
  - intros [= <-]. reflexivity.
  - exact IH.
Qed.

(** X13.  A timestamp that [fromisoformat] does not accept and a fallback
    format does is always given the UTC offset; a timestamp that
    [fromisoformat] accepts is passed on as it is, naive if it has no
    offset. *)
Theorem parse_timestamp_origin (raw : option string) (t : datetime) :
  parse raw = Ok (Some t) ->
  (exists value, fromisoformat value = Ok t) \/ tzinfo t = Datetime.utc.
Proof.
  unfold _parse_timestamp. destruct raw as [raw|]; [|discriminate].
  destruct (Str.eqb raw ""); [discriminate|].
  destruct (Str.eqb (Str.strip raw) ""); [discriminate|].
  set (value := if Str.endswith _ _ then _ else _).
  destruct (fromisoformat value) as [dt|[]] eqn:E; cbn; try discriminate.
  - intros [= <-]. left. eauto.
  - intros H. right. exact (try_formats_utc value formats t H).
Qed.

End Timestamps.

Lemma parse_timestamp_origin_witness :
  (exists value, Reference.fromisoformat value = Ok (mk_datetime 2024 1 1 0 0 0 0 None))
  \/ tzinfo (mk_datetime 2024 1 1 0 0 0 0 None) = Datetime.utc.
Proof.
  apply (parse_timestamp_origin Reference.fromisoformat Reference.strptime
           (Some " 2024-01-01T00:00:00 ")).
  vm_compute. reflexivity.
Defined.

Lemma skip_app_clean p l k :
  clean p k -> k <> [] -> Text.skip p (l ++ k) = Text.skip p l ++ k.
Proof.
  intros Hk Hne. induction l as [|c l IH]; cbn.
  - now apply skip_of_clean.
  - destruct (p c); [exact IH | reflexivity].
Qed.

(** Stripping a string that ends in a word without blanks at its ends
    only strips its start. *)
Lemma strip_before_word s word :
  Str.chars word <> [] -> clean Str.is_space (Str.chars word) ->
  clean Str.is_space (rev (Str.chars word)) ->
  Str.strip (s +:+ word) = Str.lstrip s +:+ word.
Proof.
  intros Hne Hfirst Hlast. apply chars_inj.
  rewrite strip_chars, !chars_app, lstrip_chars.
  rewrite skip_app_clean by assumption.
  rewrite rev_app_distr, skip_of_clean, <- rev_app_distr, rev_involutive; [reflexivity|].
  destruct (rev (Str.chars word)) as [|c r] eqn:E; [|exact Hlast].
  apply (f_equal (@rev ascii)) in E. rewrite rev_involutive in E. contradiction.
Qed.

Lemma endswith_last x c d :
  Str.endswith (x +:+ String c "") (String d "") = Ascii.eqb c d.
Proof.
  unfold Str.endswith. rewrite chars_app.
  change (Str.chars (String c "")) with [c]. change (Str.chars (String d "")) with [d].
  rewrite length_app. cbn [length].
  replace (length (Str.chars x) + 1 - 1)%nat with (length (Str.chars x)) by lia.
  rewrite drop_app_length.
  replace (1 <=? length (Str.chars x) + 1)%nat with true
    by (symmetry; apply Nat.leb_le; lia).
  rewrite andb_true_r. unfold Str.eqb. cbn.
  destruct (Ascii.eqb c d); reflexivity.
Qed.

Lemma drop_last_snoc x c : Str.drop_last (x +:+ String c "") = x.
Proof.
  unfold Str.drop_last. rewrite chars_app.
  change (Str.chars (String c "")) with [c].
  rewrite length_app. cbn [length].
  replace (length (Str.chars x) + 1 - 1)%nat with (length (Str.chars x)) by lia.
  rewrite take_app_length. apply of_chars_chars.
Qed.

Lemma append_assoc a b c : (a +:+ b) +:+ c = a +:+ (b +:+ c).
Proof. apply chars_inj. rewrite !chars_app. now rewrite app_assoc. Qed.

Lemma append_nonempty a b : b <> "" -> a +:+ b <> "".
Proof.
  intros Hb H. apply (f_equal String.length) in H. rewrite length_append in H.
  destruct b; [contradiction | cbn in H; lia].
Qed.

Section Zulu.

Variable fromisoformat : string -> result datetime.
Variable strptime : string -> string -> result datetime.

(** X14.  A final [Z] is read as the offset [+00:00]: the two spellings
    of a timestamp parse to the same result, whatever the library parsers
    accept. *)
Theorem parse_timestamp_zulu (stamp : string) :
  _parse_timestamp fromisoformat strptime (Some (stamp +:+ "Z"))
  = _parse_timestamp fromisoformat strptime (Some (stamp +:+ "+00:00")).
Proof.
  unfold _parse_timestamp.
  assert (Hz : Str.eqb (stamp +:+ "Z") "" = false).
  { apply String.eqb_neq, append_nonempty. discriminate. }
  assert (Ho : Str.eqb (stamp +:+ "+00:00") "" = false).
  { apply String.eqb_neq, append_nonempty. discriminate. }
  rewrite Hz, Ho.
  rewrite !strip_before_word by (cbn; congruence || reflexivity).
  assert (Hz' : Str.eqb (Str.lstrip stamp +:+ "Z") "" = false).
  { apply String.eqb_neq, append_nonempty. discriminate. }
  assert (Ho' : Str.eqb (Str.lstrip stamp +:+ "+00:00") "" = false).
  { apply String.eqb_neq, append_nonempty. discriminate. }
  rewrite Hz', Ho'.
  assert (Hno : Str.endswith (Str.lstrip stamp +:+ "+00:00") "Z" = false).
  { replace (Str.lstrip stamp +:+ "+00:00")
      with ((Str.lstrip stamp +:+ "+00:0") +:+ "0") by apply append_assoc.
    now rewrite endswith_last. }
  rewrite Hno, (endswith_last (Str.lstrip stamp) "Z" "Z"), drop_last_snoc.
  reflexivity.
Qed.

End Zulu.

(** ** Normalised items *)

Lemma of_Z_nonempty n : Str.of_Z n <> "".
Proof.
  unfold Str.of_Z. destruct (Z.to_int n) as [d|d]; [|discriminate].
  destruct d; discriminate.
Qed.

Lemma str_of_truthy v : Obj.truthy v = true -> Obj.str v <> "".
Proof.
  destruct v as [|b|n|s|l|l]; cbn [Obj.truthy Obj.str].
  - discriminate.
  - intros ->. cbn. discriminate.
  - intros _. exact (of_Z_nonempty n).
  - intros H. apply negb_true_iff, String.eqb_neq in H. exact H.
  - intros _. cbn [Obj.repr]. now apply append_nonempty, append_nonempty.
  - intros _. cbn [Obj.repr]. now apply append_nonempty, append_nonempty.
Qed.

Section Items.

Variable fromisoformat : string -> result datetime.
Variable strptime : string -> string -> result datetime.

Abbreviation normalise := (from_api fromisoformat strptime).

(** What [from_api] puts into an item apart from the timestamps. *)
Lemma from_api_fields utcnow p it :
  normalise utcnow p = Ok it ->
  id it = Obj.str (payload_get p "id")
  /\ name it = Obj.str (Obj.or_else (payload_get p "name")
                          (Obj.or_else (payload_get p "organizationId")
                             (PyStr "Unnamed entry")))
  /\ user_id it = (if Obj.truthy (payload_get p "userId")
                   then Some (Obj.str (payload_get p "userId")) else None).
Proof.
  unfold from_api. cbv zeta.
  destruct (_parse_timestamp fromisoformat strptime
              (Some (Obj.str (default (PyStr "") (p !! "revisionDate"))))) as [rev|];
    cbn [mbind result_bind]; [|discriminate].
  destruct (_parse_timestamp fromisoformat strptime
              (Some (Obj.str (payload_get p "passwordRotation")))) as [[t|]|];
    cbn [mbind result_bind]; [| |discriminate].
  - intros [= <-]. cbn. auto.
  - destruct (_parse_timestamp fromisoformat strptime
                (Some (Obj.str (payload_get p "lastPasswordRotation")))) as [last|];
      cbn [mbind result_bind]; [|discriminate].
    intros [= <-]. cbn. auto.
Qed.

(** X15.  A normalised item always has a name, and an owner that is
    either absent or not empty. *)
Theorem from_api_names (utcnow : datetime) (p : payload) (it : VaultItem) :
  normalise utcnow p = Ok it ->
  name it <> "" /\ user_id it <> Some "".
Proof.
  intros H. apply from_api_fields in H as (_ & -> & ->). split.
  - apply str_of_truthy. unfold Obj.or_else.
    destruct (Obj.truthy (payload_get p "name")) eqn:E1; [exact E1|].
    destruct (Obj.truthy (payload_get p "organizationId")) eqn:E2; [exact E2|].
    reflexivity.
  - destruct (Obj.truthy (payload_get p "userId")) eqn:E; [|discriminate].
    intros [= H]. now apply str_of_truthy in E.
Qed.

(** X16.  The label of a normalised item is its name as it is unless the
    name has the shape of ciphertext; the ["(Unnamed)"] placeholder never
    shows for an item that came through [from_api]. *)
Theorem label_of_normalised_item
    (utcnow : datetime) (p : payload) (it : VaultItem) (due : datetime) :
  normalise utcnow p = Ok it ->
  _label_for (mk_RotationCandidate it due)
  = if (Str.contains "."%char (name it) && Str.contains "|"%char (name it))
       || (60 <? Str.len (name it))
    then "(Item) ID:" +:+ str_or (Str.prefix 8 (id it)) "unknown"
    else name it.
Proof.
  intros H.
  assert (Hname : Str.eqb (name it) "" = false).
  { apply String.eqb_neq. unfold Str.eqb.
    apply from_api_fields in H as (_ & -> & _).
    apply str_of_truthy. unfold Obj.or_else.
    destruct (Obj.truthy (payload_get p "name")) eqn:E1; [exact E1|].
    destruct (Obj.truthy (payload_get p "organizationId")) eqn:E2; [exact E2|].
    reflexivity. }
  unfold _label_for. cbn [item name id].
  replace (str_or (name it) "(Unnamed)") with (name it)
    by (unfold str_or; now rewrite Hname).
  replace (str_or (id it) "") with (id it)
    by (unfold str_or, Str.eqb; destruct (String.eqb_spec (id it) ""); congruence).
  unfold _looks_encrypted. rewrite Hname.
  rewrite (andb_comm (Str.contains "|"%char _)).
  destruct (_ || _); reflexivity.
Qed.

(** X17.  Of the two rotation fields the first that parses wins, and a
    rotation timestamp, once there is one, is the effective rotation
    source whatever the revision date. *)
Theorem rotation_field_precedence
    (utcnow : datetime) (p : payload) (it : VaultItem) (t : datetime) :
  normalise utcnow p = Ok it ->
  (_parse_timestamp fromisoformat strptime
     (Some (Obj.str (payload_get p "passwordRotation"))) = Ok (Some t)
   \/ (_parse_timestamp fromisoformat strptime
         (Some (Obj.str (payload_get p "passwordRotation"))) = Ok None
       /\ _parse_timestamp fromisoformat strptime
            (Some (Obj.str (payload_get p "lastPasswordRotation"))) = Ok (Some t))) ->
  last_rotated_at it = Some t /\ effective_rotation_source it = t.
Proof.
  unfold from_api. cbv zeta.
  destruct (_parse_timestamp _ _ (Some (Obj.str (default _ _)))) as [rev|];
    cbn [mbind result_bind]; [|discriminate].
  intros H [Hfirst | [Hfirst Hsecond]]; rewrite Hfirst in H; cbn [mbind result_bind] in H.
  - injection H as <-. split; reflexivity.
  - rewrite Hsecond in H. cbn [mbind result_bind] in H.
    injection H as <-. split; reflexivity.
Qed.

End Items.

Lemma from_api_names_witness :
  name (mk_VaultItem "a1b2c3d4-0007" "Unnamed entry" None [] Scenario.day_85 None) <> ""
  /\ user_id (mk_VaultItem "a1b2c3d4-0007" "Unnamed entry" None [] Scenario.day_85 None)
     <> Some "".
Proof.
  apply (from_api_names Reference.fromisoformat Reference.strptime
           Scenario.day_85 Scenario.raw_broken).
  vm_compute. reflexivity.
Defined.

Lemma label_of_normalised_item_witness :
  _label_for (mk_RotationCandidate Scenario.login_a Scenario.day_85) = "Mail".
Proof.
  exact (label_of_normalised_item Reference.fromisoformat Reference.strptime
           Scenario.day_85 Scenario.raw_a Scenario.login_a Scenario.day_85
           normalises_raw_a).
Defined.

Example normalises_rotated :
  from_api Reference.fromisoformat Reference.strptime Scenario.day_85
           Instances.raw_rotated = Ok Instances.rotated.
Proof. vm_compute. reflexivity. Qed.

Lemma rotation_field_precedence_witness :
  last_rotated_at Instances.rotated = Some (utc_datetime 2024 2 1 0 0 0)
  /\ effective_rotation_source Instances.rotated = utc_datetime 2024 2 1 0 0 0.
Proof.
  apply (rotation_field_precedence Reference.fromisoformat Reference.strptime
           Scenario.day_85 Instances.raw_rotated).
  - exact normalises_rotated.
  - left. vm_compute. reflexivity.
Defined.

(** ** More on selection *)

Lemma of_days_eq n :
  Timedelta.of_days n
  = if Z.abs n <=? Timedelta.MAX_DELTA_DAYS then Ok (mk_timedelta n 0 0)
    else Raise OverflowError.
Proof.
  unfold Timedelta.of_days, Timedelta.new.
  change (0 + 0 / 1000000) with 0. change (0 / 86400) with 0.
  change (0 mod 1000000) with 0. change (0 mod 86400) with 0.
  now rewrite Z.add_0_r.
Qed.

(** X18.  A frequency or grace period beyond 999999999 days (or such a
    difference of the two) makes every cycle fail with [OverflowError]
    before any item is looked at, even when there is no item. *)
Theorem select_due_items_delta_range
    (policy : RotationPolicy) (now : datetime) (items : list VaultItem) :
  Timedelta.MAX_DELTA_DAYS < Z.abs (frequency_days policy)
  \/ Timedelta.MAX_DELTA_DAYS < Z.abs (grace_period_days policy)
  \/ Timedelta.MAX_DELTA_DAYS < Z.abs (frequency_days policy - grace_period_days policy) ->
  _select_due_items policy now items = Raise OverflowError.
Proof.
  intros H. unfold _select_due_items, frequency_delta, grace_delta.
  rewrite !of_days_eq.
  destruct (Z.abs (frequency_days policy) <=? _) eqn:Hf; [|reflexivity].
  destruct (Z.abs (grace_period_days policy) <=? _) eqn:Hg; [|reflexivity].
  cbn [mbind result_bind].
  change (Timedelta.sub (mk_timedelta (frequency_days policy) 0 0)
                        (mk_timedelta (grace_period_days policy) 0 0))
    with (Timedelta.of_days (frequency_days policy - grace_period_days policy)).
  rewrite of_days_eq.
  destruct (Z.abs (frequency_days policy - grace_period_days policy) <=? _) eqn:Hd;
    [|reflexivity].
  apply Z.leb_le in Hf, Hg, Hd. lia.
Qed.

Lemma select_due_items_delta_range_witness :
  _select_due_items (mk_RotationPolicy 1000000000 0 None None true)
                    Scenario.day_85 [] = Raise OverflowError.
Proof.
  apply select_due_items_delta_range. left. vm_compute. reflexivity.
Defined.

Lemma add_keeps_tzinfo t delta r :
  Datetime.add t delta = Ok r -> tzinfo r = tzinfo t.
Proof.
  unfold Datetime.add.
  destruct (Timedelta.new _ _ _) as [base|]; cbn [mbind result_bind]; [|discriminate].
  destruct (Timedelta.add base delta) as [sum|]; cbn [mbind result_bind]; [|discriminate].
  destruct (_ && _); [|discriminate].
  destruct (Datetime.ord2ymd _) as [[y m] d]. intros [= <-]. reflexivity.
Qed.

Lemma eq_offset_refl o : Datetime.eq_offset o o = true.
Proof.
  destruct o as [x|]; [|reflexivity]. cbn. unfold Timedelta.eqb.
  now rewrite !Z.eqb_refl.
Qed.

Lemma ge_same_offset a b :
  tzinfo a = tzinfo b ->
  Datetime.ge a b
  = Ok (0 <=? Datetime.cmp_fields (Datetime.fields a) (Datetime.fields b)).
Proof.
  intros H. unfold Datetime.ge, Datetime.cmp. rewrite H, eq_offset_refl. reflexivity.
Qed.

Lemma cmp_fields_trans a :
  forall b c, length a = length b -> length b = length c ->
    0 <= Datetime.cmp_fields a b -> 0 <= Datetime.cmp_fields b c ->
    0 <= Datetime.cmp_fields a c.
Proof.
  induction a as [|x a IH]; intros [|y b] [|z c]; cbn; try lia.
  intros Hab Hbc.
  destruct (x <? y) eqn:Hxy; [lia|]. destruct (y <? z) eqn:Hyz; [lia|].
  apply Z.ltb_ge in Hxy, Hyz.
  destruct (y <? x) eqn:Hyx; destruct (z <? y) eqn:Hzy;
    try apply Z.ltb_lt in Hyx; try apply Z.ltb_lt in Hzy;
    try apply Z.ltb_ge in Hyx; try apply Z.ltb_ge in Hzy; intros H1 H2.
  - replace (x <? z) with false by (symmetry; apply Z.ltb_ge; lia).
    replace (z <? x) with true by (symmetry; apply Z.ltb_lt; lia). lia.
  - replace (x <? z) with false by (symmetry; apply Z.ltb_ge; lia).
    replace (z <? x) with true by (symmetry; apply Z.ltb_lt; lia). lia.
  - replace (x <? z) with false by (symmetry; apply Z.ltb_ge; lia).
    replace (z <? x) with true by (symmetry; apply Z.ltb_lt; lia). lia.
  - assert (x = y) by lia. assert (y = z) by lia. subst.
    rewrite Z.ltb_irrefl. apply (IH b c); congruence || lia.
Qed.

Lemma select_loop_later now now' fd th items selected :
  tzinfo now' = tzinfo now ->
  Datetime.ge now' now = Ok true ->
  Forall (fun it => tzinfo (effective_rotation_source it) = tzinfo now) items ->
  select_loop now fd th items = Ok selected ->
  exists selected',
    select_loop now' fd th items = Ok selected' /\ selected `sublist_of` selected'.
Proof.
  intros Htz Hlater Hall.
  rewrite (ge_same_offset now' now) in Hlater by exact Htz.
  assert (Hl : (0 <=? Datetime.cmp_fields (Datetime.fields now') (Datetime.fields now))
               = true) by congruence.
  clear Hlater. apply Z.leb_le in Hl. revert selected.
  induction Hall as [|it items Hit _ IH]; intros selected; cbn [select_loop].
  - intros [= <-]. exists []. split; [reflexivity | constructor].
  - destruct (Datetime.add (effective_rotation_source it) fd) as [due|];
      cbn [mbind result_bind]; [|discriminate].
    destruct (Datetime.add (effective_rotation_source it) th) as [reminder|] eqn:Hrem;
      cbn [mbind result_bind]; [|discriminate].
    apply add_keeps_tzinfo in Hrem.
    rewrite (ge_same_offset now reminder), (ge_same_offset now' reminder) by congruence.
    assert (Hmono :
              (0 <=? Datetime.cmp_fields (Datetime.fields now) (Datetime.fields reminder))
              = true ->
              (0 <=? Datetime.cmp_fields (Datetime.fields now') (Datetime.fields reminder))
              = true).
    { intros Hdue. apply Z.leb_le in Hdue. apply Z.leb_le.
      apply (cmp_fields_trans _ (Datetime.fields now)); try reflexivity; assumption. }
    set (b := 0 <=? Datetime.cmp_fields (Datetime.fields now) _) in *.
    set (b' := 0 <=? Datetime.cmp_fields (Datetime.fields now') _) in *.
    clearbody b b'. cbn [mbind result_bind].
    destruct (select_loop now fd th items) as [more|]; cbn [mbind result_bind];
      [|discriminate].
    destruct (IH more eq_refl) as (more' & -> & Hsub). cbn [mbind result_bind].
    intros [= <-].
    destruct b.
    + rewrite Hmono by reflexivity.
      eexists. split; [reflexivity|]. apply sublist_skip, Hsub.
    + destruct b'.
      * eexists. split; [reflexivity|]. apply sublist_cons, Hsub.
      * eexists. split; [reflexivity | exact Hsub].
Qed.

(** X19.  Once due, always due: when all timestamps carry the same
    offset (as when the vault reports them with a final [Z] and the clock
    is UTC), every candidate selected at [now] is selected at any later
    [now'], with the same deadline and in the same order. *)
Theorem selection_grows_with_time
    (policy : RotationPolicy) (now now' : datetime) (items : list VaultItem)
    (selected : list RotationCandidate) :
  tzinfo now' = tzinfo now ->
  Datetime.ge now' now = Ok true ->
  Forall (fun it => tzinfo (effective_rotation_source it) = tzinfo now) items ->
  _select_due_items policy now items = Ok selected ->
  exists selected',
    _select_due_items policy now' items = Ok selected'
    /\ selected `sublist_of` selected'.
Proof.
  intros Htz Hlater Hall. unfold _select_due_items.
  destruct (frequency_delta policy) as [fd|]; cbn [mbind result_bind]; [|discriminate].
  destruct (grace_delta policy) as [gd|]; cbn [mbind result_bind]; [|discriminate].
  destruct (Timedelta.sub fd gd) as [th|]; cbn [mbind result_bind]; [|discriminate].
  now apply select_loop_later.
Qed.

Lemma selection_grows_with_time_witness :
  exists selected',
    _select_due_items Scenario.policy Scenario.day_85
                      [Scenario.login_a; Scenario.login_b] = Ok selected'
    /\ [Scenario.due_b] `sublist_of` selected'.
Proof.
  apply (selection_grows_with_time Scenario.policy Scenario.day_79 Scenario.day_85).
  - reflexivity.
  - vm_compute. reflexivity.
  - repeat constructor.
  - vm_compute. reflexivity.
Defined.

(** ** More on dispatch *)

Section MoreDispatch.

Variable json_loads : string -> result pyobj.
Variable resolver : VaultItem -> option string.

Abbreviation dispatch := (_dispatch_notifications json_loads resolver).
Abbreviation sent_to := (group_notice resolver).

(** X20.  In per-recipient mode, candidates none of which resolves to a
    recipient are dropped without a trace: nothing is sent and the world
    is left as it was. *)
Theorem unresolved_candidates_are_dropped
    (environ : gmap string string) (policy : RotationPolicy) (w : world)
    (candidates : list RotationCandidate) :
  digest_mode environ = false ->
  (forall c, c ∈ candidates -> resolvable resolver c = false) ->
  dispatch environ policy w candidates = (Ok tt, w).
Proof.
  intros Hmode Hnone. rewrite dispatch_per_recipient by exact Hmode.
  destruct (grouping_spec resolver candidates) as (_ & _ & Hin).
  assert (Hempty : recipients resolver candidates = []).
  { apply elem_of_nil_inv. intros r Hr. apply Hin in Hr as (Hr & c & Hc & Hres).
    specialize (Hnone c Hc). unfold resolvable in Hnone. rewrite Hres in Hnone.
    apply negb_false_iff, String.eqb_eq in Hnone. contradiction. }
  rewrite Hempty. cbn. rewrite app_nil_r. now destruct w.
Qed.






End MoreDispatch.

Lemma unresolved_candidates_are_dropped_witness :
  _dispatch_notifications Reference.json_loads Reference.resolver
    Scenario.per_recipient Scenario.policy Scenario.after_first [Scenario.due_orphan]
  = (Ok tt, Scenario.after_first).
Proof.
  apply unresolved_candidates_are_dropped; [reflexivity|].
  intros c Hc. apply list_elem_of_singleton in Hc. subst c. reflexivity.
Defined.



(** ** More on the digest *)

Section MoreDigest.

Variable json_loads : string -> result pyobj.
Variable resolver : VaultItem -> option string.

Abbreviation dispatch := (_dispatch_notifications json_loads resolver).
Abbreviation changed := (_digest_has_changed json_loads).

Lemma write_text_frame f path content :
  (forall other, other <> path ->
     files (snd (write_text f path content)) !! other = files f !! other)
  /\ faults (snd (write_text f path content)) = faults f.
Proof.
  unfold write_text. destruct (faults f !! path) as [[| |written]|]; cbn;
    (split; [|reflexivity]); intros other Hother;
    reflexivity || now rewrite lookup_insert_ne.
Qed.

Lemma digest_frame environ f candidates :
  (forall path, path <> state_file environ ->
     files (snd (changed environ f candidates)) !! path = files f !! path)
  /\ unwritable (snd (changed environ f candidates)) = unwritable f.
Proof.
  unfold _digest_has_changed.
  destruct (stored_hash _ _ _) as [prev|e]; cbn [snd]; [|now split].
  destruct (Obj.eq_str _ _); cbn [snd]; [now split|].
  destruct (write_text_frame f (state_file environ)
              (state_document (fingerprint candidates))) as [Hfiles Hfaults].
  split; [exact Hfiles|]. unfold unwritable. now rewrite Hfaults.
Qed.

(** X23.  Dispatch writes to one place only: every file other than the
    state file is as before, in either mode, and the notifier's record
    only grows, by at most one notice in digest mode. *)
Theorem dispatch_frame
    (environ : gmap string string) (policy : RotationPolicy) (w : world)
    (candidates : list RotationCandidate) :
  (forall path, path <> state_file environ ->
     files (fs (snd (dispatch environ policy w candidates))) !! path
     = files (fs w) !! path)
  /\ outbox w `prefix_of` outbox (snd (dispatch environ policy w candidates))
  /\ (digest_mode environ = true ->
      (length (outbox (snd (dispatch environ policy w candidates)))
       <= length (outbox w) + 1)%nat).
Proof.
  destruct candidates as [|c rest]; [cbn; repeat split; auto; lia|].
  destruct (digest_mode environ) eqn:Hmode.
  - rewrite (dispatch_digest_mode _ _ _ _ _ _ Hmode) by discriminate. cbn.
    split; [apply digest_frame|]. split; [eexists; reflexivity|].
    intros _. rewrite length_app. destruct (fst _) as [[|]|]; cbn; lia.
  - rewrite dispatch_per_recipient by exact Hmode. cbn.
    split; [reflexivity|]. split; [eexists; reflexivity | discriminate].
Qed.

(** After a look at the digest the state file holds the fingerprint of
    the list just seen, provided it can be written and read back. *)
Lemma digest_remembers environ f candidates :
  state_file environ ∉ unwritable f ->
  json_loads (state_document (fingerprint candidates))
  = Ok (PyDict [("last_hash", PyStr (fingerprint candidates))]) ->
  (exists changed_or_not, fst (changed environ f candidates) = Ok changed_or_not)
  /\ stored_hash json_loads (snd (changed environ f candidates)) (state_file environ)
     = Ok (PyStr (fingerprint candidates)).
Proof.
  intros Hw Hloads.
  destruct (stored_hash_writable json_loads _ _ Hw) as [prev Hprev].
  destruct (Obj.eq_str prev (fingerprint candidates)) eqn:E.
  - apply eq_str_true in E. subst prev.
    rewrite (digest_suppressed _ _ _ _ Hprev). cbn. eauto.
  - apply eq_str_false in E.
    rewrite (digest_changed_when_different _ _ _ _ _ Hprev E). cbn [fst snd].
    split; [eauto|]. now apply stored_hash_after_write.
Qed.

Lemma digest_mode_remembers_the_last_list_aux
    (environ : gmap string string) (policy : RotationPolicy) (w : world)
    (candidates : list RotationCandidate) :
  digest_mode environ = true ->
  candidates <> [] ->
  state_file environ ∉ unwritable (fs w) ->
  json_loads (state_document (fingerprint candidates))
  = Ok (PyDict [("last_hash", PyStr (fingerprint candidates))]) ->
  fst (dispatch environ policy w candidates) = Ok tt
  /\ stored_hash json_loads (fs (snd (dispatch environ policy w candidates)))
                 (state_file environ)
     = Ok (PyStr (fingerprint candidates))
  /\ state_file environ ∉ unwritable (fs (snd (dispatch environ policy w candidates))).
Proof.
  intros Hmode Hne Hw Hloads.
  rewrite (dispatch_digest_mode _ _ _ _ _ _ Hmode Hne). cbn.
  destruct (digest_remembers environ (fs w) candidates Hw Hloads) as [[b Hb] Hstored].
  split; [now rewrite Hb|]. split; [exact Hstored|].
  destruct (digest_frame environ (fs w) candidates) as [_ ->]. exact Hw.
Qed.


(** X25.  Only the last list is remembered: a list that comes back after
    a different one is notified again.  Dispatching [first], then
    [second], then [first] again sends a notice for [second] and one more
    for [first], provided their fingerprints differ. *)
Theorem digest_mode_forgets_older_lists
    (environ : gmap string string) (policy : RotationPolicy) (w : world)
    (first second : list RotationCandidate) :
  digest_mode environ = true ->
  first <> [] -> second <> [] ->
  fingerprint first <> fingerprint second ->
  state_file environ ∉ unwritable (fs w) ->
  json_loads (state_document (fingerprint first))
  = Ok (PyDict [("last_hash", PyStr (fingerprint first))]) ->
  json_loads (state_document (fingerprint second))
  = Ok (PyDict [("last_hash", PyStr (fingerprint second))]) ->
  let w1 := snd (dispatch environ policy w first) in
  let w2 := snd (dispatch environ policy w1 second) in
  let w3 := snd (dispatch environ policy w2 first) in
  outbox w3 = outbox w1 ++ [digest_notice policy second; digest_notice policy first].
Proof.
  intros Hmode Hf Hs Hdiff Hw Hlf Hls w1 w2 w3.
  destruct (digest_mode_remembers_the_last_list_aux environ policy w first
              Hmode Hf Hw Hlf) as (_ & H1 & Hw1).
  fold w1 in H1, Hw1.
  destruct (digest_mode_remembers_the_last_list_aux environ policy w1 second
              Hmode Hs Hw1 Hls) as (_ & H2 & Hw2).
  fold w2 in H2, Hw2.
  assert (Hsecond : outbox w2 = outbox w1 ++ [digest_notice policy second]).
  { unfold w2. rewrite (dispatch_digest_mode _ _ _ _ _ _ Hmode Hs).
    rewrite (digest_changed_when_different _ _ _ _ _ H1); [reflexivity|].
    congruence. }
  unfold w3. rewrite (dispatch_digest_mode _ _ _ _ _ _ Hmode Hf).
  rewrite (digest_changed_when_different _ _ _ _ _ H2) by congruence.
  cbn. rewrite Hsecond, <- app_assoc. reflexivity.
Qed.

End MoreDigest.

Lemma dispatch_frame_witness :
  (length (outbox (snd (_dispatch_notifications Reference.json_loads
                          Reference.resolver ∅ Scenario.policy Scenario.after_first
                          [Scenario.due_b])))
   <= length (outbox Scenario.after_first) + 1)%nat.
Proof.
  apply (dispatch_frame Reference.json_loads Reference.resolver ∅ Scenario.policy
           Scenario.after_first [Scenario.due_b]).
  reflexivity.
Defined.


Lemma digest_mode_forgets_older_lists_witness :
  length
    (outbox
       (snd (_dispatch_notifications Reference.json_loads Reference.resolver ∅
               Scenario.policy
               (snd (_dispatch_notifications Reference.json_loads Reference.resolver ∅
                       Scenario.policy
                       (snd (_dispatch_notifications Reference.json_loads
                               Reference.resolver ∅ Scenario.policy Scenario.fresh
                               [Scenario.due_a]))
                       [Scenario.due_b]))
               [Scenario.due_a])))
  = 3%nat.
Proof.
  pose proof (digest_mode_forgets_older_lists Reference.json_loads Reference.resolver
                ∅ Scenario.policy Scenario.fresh [Scenario.due_a] [Scenario.due_b])
    as H.
  cbv zeta in H. rewrite H.
  - vm_compute. reflexivity.
  - reflexivity.
  - discriminate.
  - discriminate.
  - vm_compute. discriminate.
  - vm_compute. discriminate.
  - vm_compute. reflexivity.
  - vm_compute. reflexivity.
Defined.

(** ** The selection filters *)

Lemma filter_by_spec keep items kept :
  CipherSelection.filter_by keep items = Ok kept ->
  kept = List.filter (keeps keep) items.
Proof.
  revert kept. induction items as [|c items IH]; intros kept; cbn.
  - now intros [= <-].
  - unfold keeps at 1. destruct (keep c) as [k|]; cbn [mbind result_bind]; [|discriminate].
    destruct (CipherSelection.filter_by keep items) as [rest|];
      cbn [mbind result_bind]; [|discriminate].
    intros [= <-]. rewrite (IH rest eq_refl). destruct k; reflexivity.
Qed.

Lemma filter_by_fixed keep items :
  Forall (fun c => keep c = Ok true) items ->
  CipherSelection.filter_by keep items = Ok items.
Proof.
  induction 1 as [|c items Hc _ IH]; [reflexivity|]. cbn. now rewrite Hc, IH.
Qed.

Lemma keeps_true keep c : keeps keep c = true <-> keep c = Ok true.
Proof.
  unfold keeps. destruct (keep c) as [[|]|]; split; congruence.
Qed.

Lemma filter_by_idempotent keep items kept :
  CipherSelection.filter_by keep items = Ok kept ->
  kept `sublist_of` items /\ CipherSelection.filter_by keep kept = Ok kept.
Proof.
  intros H. apply filter_by_spec in H. subst kept. split.
  - induction items as [|c items IH]; cbn; [constructor|].
    destruct (keeps keep c); [apply sublist_skip, IH | apply sublist_cons, IH].
  - apply filter_by_fixed, Forall_forall. intros c Hc.
    apply list_elem_of_In, List.filter_In in Hc as [_ Hc]. now apply keeps_true.
Qed.

(** X26.  Both selection filters keep the records in their order and are
    idempotent: filtering a filtered selection again changes nothing. *)
Theorem selection_filters_are_idempotent
    (items kept : list payload) (ids : list string) :
  (CipherSelection.filter_users items ids = Ok kept ->
   kept `sublist_of` items /\ CipherSelection.filter_users kept ids = Ok kept)
  /\ (CipherSelection.filter_collections items ids = Ok kept ->
      kept `sublist_of` items /\ CipherSelection.filter_collections kept ids = Ok kept).
Proof. split; apply filter_by_idempotent. Qed.

(** X27.  [filter_users] keeps exactly the records whose [userId] is a
    string of the allow-list (a record without [userId] is never kept),
    and fails with [TypeError] as soon as one record has a list or an
    object for [userId]. *)
Theorem filter_users_spec (items : list payload) (ids : list string) :
  CipherSelection.filter_users items ids
  = if forallb (fun c => Obj.hashable (payload_get c "userId")) items
    then Ok (List.filter
               (fun c => existsb (Obj.eq_str (payload_get c "userId")) ids) items)
    else Raise TypeError.
Proof.
  unfold CipherSelection.filter_users.
  induction items as [|c items IH]; [reflexivity|].
  cbn [CipherSelection.filter_by forallb List.filter]. rewrite IH.
  unfold Obj.in_str_set.
  destruct (Obj.hashable (payload_get c "userId")); [|reflexivity].
  destruct (forallb _ items); [|reflexivity].
  destruct (existsb _ ids); reflexivity.
Qed.

(** X28.  A [collectionIds] field that is a string is walked character by
    character: such a record (without [collectionId]) is kept exactly when
    one of its characters, as a one-character string, is in the
    allow-list. *)
Theorem string_collection_ids_match_by_character
    (cipher : payload) (text : string) (ids : list string) :
  cipher !! "collectionId" = None ->
  cipher !! "collectionIds" = Some (PyStr text) ->
  CipherSelection.matches_collections ids cipher
  = Ok (existsb (fun ch => existsb (Str.eqb (String ch "")) ids) (Str.chars text)).
Proof.
  intros Hcid Hmulti. unfold CipherSelection.matches_collections, payload_get.
  rewrite Hcid, Hmulti. cbn. f_equal.
  induction (Str.chars text) as [|ch l IH]; [reflexivity|]. cbn. now rewrite IH.
Qed.

Lemma selection_filters_are_idempotent_witness :
  [Scenario.raw_a] `sublist_of` [Scenario.raw_a; Scenario.raw_b]
  /\ CipherSelection.filter_users [Scenario.raw_a] ["u1"] = Ok [Scenario.raw_a].
Proof.
  apply (selection_filters_are_idempotent [Scenario.raw_a; Scenario.raw_b]
           [Scenario.raw_a] ["u1"]).
  vm_compute. reflexivity.
Defined.

Lemma string_collection_ids_match_by_character_witness :
  CipherSelection.matches_collections ["a"] {[ "collectionIds" := PyStr "cab" ]}
  = Ok true.
Proof.
  rewrite (string_collection_ids_match_by_character
             {[ "collectionIds" := PyStr "cab" ]} "cab" ["a"]).
  - reflexivity.
  - reflexivity.
  - reflexivity.
Defined.

(** ** Targeting *)

Lemma filter_users_members items ids kept p :
  CipherSelection.filter_users items ids = Ok kept -> p ∈ kept ->
  exists u, payload_get p "userId" = PyStr u /\ u ∈ ids.
Proof.
  intros H Hp. apply filter_by_spec in H. subst kept.
  apply list_elem_of_In, List.filter_In in Hp as [_ Hp].
  apply keeps_true in Hp. unfold Obj.in_str_set in Hp.
  destruct (Obj.hashable (payload_get p "userId")); [|discriminate].
  injection Hp as Hp. apply List.existsb_exists in Hp as (u & Hu & Heq).
  destruct (payload_get p "userId") as [| | |t| |]; try discriminate.
  cbn in Heq. apply String.eqb_eq in Heq. subst t.
  exists u. split; [reflexivity | now apply list_elem_of_In].
Qed.

Lemma select_loop_members now fd th items cands c :
  select_loop now fd th items = Ok cands -> c ∈ cands -> item c ∈ items.
Proof.
  revert cands. induction items as [|it items IH]; intros cands; cbn [select_loop].
  - intros [= <-] Hc. inversion Hc.
  - cbv zeta.
    destruct (Datetime.add (effective_rotation_source it) fd) as [due|];
      cbn [mbind result_bind]; [|discriminate].
    destruct (Datetime.add (effective_rotation_source it) th) as [reminder|];
      cbn [mbind result_bind]; [|discriminate].
    destruct (Datetime.ge now reminder) as [is_due|]; cbn [mbind result_bind];
      [|discriminate].
    destruct (select_loop now fd th items) as [more|]; cbn [mbind result_bind];
      [|discriminate].
    intros [= <-] Hc. destruct is_due.
    + apply elem_of_cons in Hc as [-> | Hc].
      * apply list_elem_of_here.
      * apply list_elem_of_further. now apply (IH more).
    + apply list_elem_of_further. now apply (IH more).
Qed.

Section Targeting.

Variable fromisoformat : string -> result datetime.
Variable strptime : string -> string -> result datetime.
Variable json_loads : string -> result pyobj.
Variable resolver : VaultItem -> option string.

Lemma from_api_all_members utcnow k selection its it :
  from_api_all fromisoformat strptime utcnow k selection = Ok its -> it ∈ its ->
  exists p t, p ∈ selection /\ from_api fromisoformat strptime t p = Ok it.
Proof.
  revert k its. induction selection as [|p rest IH]; intros k its; cbn [from_api_all].
  - intros [= <-] Hit. inversion Hit.
  - destruct (from_api fromisoformat strptime (utcnow k) p) as [first|] eqn:Hfirst;
      cbn [mbind result_bind]; [|discriminate].
    destruct (from_api_all fromisoformat strptime utcnow (S k) rest) as [others|] eqn:Hrest;
      cbn [mbind result_bind]; [|discriminate].
    intros [= <-] Hit. apply elem_of_cons in Hit as [-> | Hit].
    + exists p, (utcnow k). split; [apply list_elem_of_here | exact Hfirst].
    + destruct (IH _ _ Hrest Hit) as (q & t & Hq & Hfrom).
      exists q, t. split; [now apply list_elem_of_further | exact Hfrom].
Qed.

(** X29.  With a user allow-list in the policy, every candidate of a cycle
    belongs to an allowed user; a candidate without owner can only come
    from a record whose [userId] is the empty string, and only when the
    empty string is on the allow-list. *)
Theorem candidates_belong_to_target_users
    (environ : gmap string string) (policy : RotationPolicy)
    (ciphers : list payload) (utcnow : nat -> datetime) (now : datetime)
    (send : bool) (w w' : world) (cands : list RotationCandidate)
    (c : RotationCandidate) :
  nonempty (target_users policy) = true ->
  run_once fromisoformat strptime json_loads resolver environ policy ciphers
           utcnow now send w = (Ok cands, w') ->
  c ∈ cands ->
  default "" (user_id (item c)) ∈ default [] (target_users policy).
Proof.
  intros Htarget Hrun Hc. apply run_once_inv in Hrun as [Hcs _].
  unfold cycle_candidates in Hcs. rewrite Htarget in Hcs.
  destruct (if nonempty (target_collections policy) then _ else _) as [sel|];
    cbn [mbind result_bind] in Hcs; [|discriminate].
  destruct (CipherSelection.filter_users sel (default [] (target_users policy)))
    as [kept|] eqn:Hkept; cbn [mbind result_bind] in Hcs; [|discriminate].
  destruct (from_api_all fromisoformat strptime utcnow 0 kept) as [its|] eqn:Hits;
    cbn [mbind result_bind] in Hcs; [|discriminate].
  unfold _select_due_items in Hcs.
  destruct (frequency_delta policy) as [fd|]; cbn [mbind result_bind] in Hcs;
    [|discriminate].
  destruct (grace_delta policy) as [gd|]; cbn [mbind result_bind] in Hcs;
    [|discriminate].
  destruct (Timedelta.sub fd gd) as [th|]; cbn [mbind result_bind] in Hcs;
    [|discriminate].
  pose proof (select_loop_members _ _ _ _ _ _ Hcs Hc) as Hitem.
  destruct (from_api_all_members _ _ _ _ _ Hits Hitem) as (p & t & Hp & Hfrom).
  destruct (filter_users_members _ _ _ _ Hkept Hp) as (u & Hu & Hin).
  apply from_api_fields in Hfrom as (_ & _ & ->). rewrite Hu. cbn.
  destruct (Str.eqb u "") eqn:Hempty; cbn; [|exact Hin].
  apply eqb_empty in Hempty. now subst u.
Qed.

End Targeting.

Lemma candidates_belong_to_target_users_witness :
  default "" (user_id (item Scenario.due_b)) ∈ ["u2"].
Proof.
  apply (candidates_belong_to_target_users
           Reference.fromisoformat Reference.strptime Reference.json_loads
           Reference.resolver ∅ (mk_RotationPolicy 90 5 None (Some ["u2"]) true)
           [Scenario.raw_a; Scenario.raw_b] Scenario.clock Scenario.day_85 false
           Scenario.fresh Scenario.fresh [Scenario.due_b] Scenario.due_b).
  - reflexivity.
  - vm_compute. reflexivity.
  - apply list_elem_of_here.
Defined.
